(** * glLoader: the lazy OpenGL entry-point loader of OpenGL.cpp

    A shallow embedding of [Loader], of the [LOAD_ENTRYPOINT] macro, of the
    forwarding wrappers and of [OpenGLContext::createForWindow], with the
    operating system and the graphics driver as an oracle that answers every
    call the program makes.  The calls are recorded in a trace, so that
    "which platform function was called, with what, and in which order" is
    a statement about a list. *)

From Stdlib Require Import ZArith String List Bool Lia FinFun.
From ExtLib Require Import Structures.Monad.
Import ListNotations.
Import MonadNotation.

Local Open Scope string_scope.
Local Open Scope list_scope.
Local Open Scope Z_scope.
Local Open Scope monad_scope.

(** ** Values that cross the boundary to the platform *)

(** An argument handed to a function pointer.  Floating-point arguments are
    only ever passed on, never computed with, so a [VReal] carries the bit
    pattern. *)
Inductive value : Type :=
| VInt (n : Z)
| VReal (bits : Z)
| VPtr (p : Z)
| VStr (s : string).

(** The platform functions OpenGL.cpp calls.  [Indirect pfn args] is a call
    through a function pointer, which is how [m_pfnWglGetProcAddress] and
    every resolved entry point are invoked; [GdiSwapBuffers] is the
    statically imported [::SwapBuffers]. *)
Inductive Call : Type :=
| LoadLibraryA (lpLibFileName : string)
| GetProcAddress (hModule : Z) (lpProcName : string)
| FreeLibrary (hModule : Z)
| GetDC (hWnd : Z)
| ChoosePixelFormat (hdc : Z) (ppfd : Z)
| SetPixelFormat (hdc : Z) (format : Z) (ppfd : Z)
| GdiSwapBuffers (hdc : Z)
| Indirect (pfn : Z) (args : list value).

Definition value_eq_dec (x y : value) : {x = y} + {x <> y}.
Proof. decide equality; first [apply Z.eq_dec | apply string_dec]. Defined.

Definition Call_eq_dec (x y : Call) : {x = y} + {x <> y}.
Proof.
  decide equality;
    first [apply Z.eq_dec | apply string_dec | apply (list_eq_dec value_eq_dec)].
Defined.

(** ** Program state *)

(** [class Loader]: the library handle and the extension-query pointer. *)
Record Loader : Type := mkLoader {
  m_hLibGL : Z;
  m_pfnWglGetProcAddress : Z
}.

(** A per-symbol cache slot: the function-local [static] of a [gl*] wrapper,
    or the [m_pfn*] data member of an [OpenGLContext] object. *)
Inductive slot : Type :=
| Static (var : string)
| Member (this : nat) (var : string).

Definition slot_eq_dec (x y : slot) : {x = y} + {x <> y}.
Proof. decide equality; first [apply string_dec | apply Nat.eq_dec]. Defined.

Record Machine : Type := mkMachine {
  trace : list Call;            (* platform calls made so far, oldest first *)
  theInstance : option Loader;  (* the static of Loader::instance() *)
  slots : slot -> Z;            (* the cache slots; 0 is nullptr *)
  next_this : nat               (* identity of the next OpenGLContext object *)
}.

Definition set_slot (var : slot) (p : Z) (s : slot -> Z) : slot -> Z :=
  fun k => if slot_eq_dec var k then p else s k.

(** Nothing has run yet: every slot holds [nullptr] and the singleton has not
    been constructed. *)
Definition boot : Machine :=
  mkMachine [] None (fun _ => 0) 0.

(** How a computation can stop short of returning: a failed [assert], or a
    call through a null function pointer (which C++ leaves undefined). *)
Inductive fault : Type :=
| AssertionFailed
| NullCall.

Inductive outcome (A : Type) : Type :=
| Done (a : A) (m : Machine)
| Stopped (f : fault) (m : Machine).

Arguments Done {A} a m.
Arguments Stopped {A} f m.

Definition machine_of {A : Type} (o : outcome A) : Machine :=
  match o with
  | Done _ m => m
  | Stopped _ m => m
  end.

Definition M (A : Type) : Type := Machine -> outcome A.

#[global] Instance Monad_M : Monad M := {
  ret := fun _ a m => Done a m;
  bind := fun _ _ c k m =>
    match c m with
    | Done a m' => k a m'
    | Stopped f m' => Stopped f m'
    end
}.

Definition stop {A : Type} (f : fault) : M A :=
  fun m => Stopped f m.

Definition get_instance : M (option Loader) :=
  fun m => Done (theInstance m) m.

Definition put_instance (l : Loader) : M unit :=
  fun m => Done tt (mkMachine (trace m) (Some l) (slots m) (next_this m)).

Definition read (var : slot) : M Z :=
  fun m => Done (slots m var) m.

(** The machine after [var = p]. *)
Definition with_slot (var : slot) (p : Z) (m : Machine) : Machine :=
  mkMachine (trace m) (theInstance m) (set_slot var p (slots m)) (next_this m).

Definition write (var : slot) (p : Z) : M unit :=
  fun m => Done tt (with_slot var p m).

(** The machine after the platform call [c]. *)
Definition log (c : Call) (m : Machine) : Machine :=
  mkMachine (trace m ++ [c]) (theInstance m) (slots m) (next_this m).

(** ** The wrapped entry points

    Every function of OpenGL.cpp that expands [LOAD_ENTRYPOINT], as the pair
    of the symbol it asks the loader for and the variable it caches the
    answer in: the [OpenGLContext] methods first, then the free [gl*]
    functions. *)

Definition wgl_entry_points : list (string * string) :=
  [ ("wglCopyContext", "m_pfnWglCopyContext");
    ("wglCreateContext", "m_pfnWglCreateContext");
    ("wglCreateLayerContext", "m_pfnWglCreateLayerContext");
    ("wglDeleteContext", "m_pfnWglDeleteContext");
    ("wglDescribeLayerPlane", "m_pfnWglDescribeLayerPlane");
    ("wglGetCurrentContext", "m_pfnWglGetCurrentContext");
    ("wglGetCurrentDC", "m_pfnWglGetCurrentDC");
    ("wglGetLayerPaletteEntries", "m_pfnWglGetLayerPaletteEntries");
    ("wglMakeCurrent", "m_pfnWglMakeCurrent");
    ("wglRealizeLayerPalette", "m_pfnWglRealizeLayerPalette");
    ("wglSetLayerPaletteEntries", "m_pfnWglSetLayerPaletteEntries");
    ("wglShareLists", "m_pfnWglShareLists");
    ("wglSwapLayerBuffers", "m_pfnWglSwapLayerBuffers");
    ("wglSwapMultipleBuffers", "m_pfnWglSwapMultipleBuffers");
    ("wglUseFontBitmapsA", "m_pfnWglUseFontBitmapsA");
    ("wglUseFontBitmapsW", "m_pfnWglUseFontBitmapsW");
    ("wglUseFontOutlinesA", "m_pfnWglUseFontOutlinesA");
    ("wglUseFontOutlinesW", "m_pfnWglUseFontOutlinesW") ].

Definition gl_entry_points : list (string * string) :=
  [ ("glCullFace", "pfnCullFace");
    ("glFrontFace", "pfnFrontFace");
    ("glHint", "pfnHint");
    ("glLineWidth", "pfnLineWidth");
    ("glPointSize", "pfnPointSize");
    ("glPolygonMode", "pfnPolygonMode");
    ("glScissor", "pfnScissor");
    ("glTexParameterf", "pfnTexParameterf");
    ("glTexParameterfv", "pfnTexParameterfv");
    ("glTexParameteri", "pfnTexParameteri");
    ("glTexParameteriv", "pfnTexParameteriv");
    ("glTexImage1D", "pfnTexImage1D");
    ("glTexImage2D", "pfnTexImage2D");
    ("glDrawBuffer", "pfnDrawBuffer");
    ("glClear", "pfnClear");
    ("glClearColor", "pfnClearColor");
    ("glClearStencil", "pfnClearStencil");
    ("glClearDepth", "pfnClearDepth");
    ("glStencilMask", "pfnStencilMask");
    ("glColorMask", "pfnColorMask");
    ("glDepthMask", "pfnDepthMask");
    ("glDisable", "pfnDisable");
    ("glEnable", "pfnEnable");
    ("glFinish", "pfnFinish");
    ("glFlush", "pfnFlush");
    ("glBlendFunc", "pfnBlendFunc");
    ("glLogicOp", "pfnLogicOp");
    ("glStencilFunc", "pfnStencilFunc");
    ("glStencilOp", "pfnStencilOp");
    ("glDepthFunc", "pfnDepthFunc");
    ("glPixelStoref", "pfnPixelStoref");
    ("glPixelStorei", "pfnPixelStorei");
    ("glReadBuffer", "pfnReadBuffer");
    ("glReadPixels", "pfnReadPixels");
    ("glGetBooleanv", "pfnGetBooleanv");
    ("glGetDoublev", "pfnGetDoublev");
    ("glGetError", "pfnGetError");
    ("glGetFloatv", "pfnGetFloatv");
    ("glGetIntegerv", "pfnGetIntegerv");
    ("glGetString", "pfnGetString");
    ("glGetTexImage", "pfnGetTexImage");
    ("glGetTexParameterfv", "pfnGetTexParameterfv");
    ("glGetTexParameteriv", "pfnGetTexParameteriv");
    ("glGetTexLevelParameterfv", "pfnGetTexLevelParameterfv");
    ("glGetTexLevelParameteriv", "pfnGetTexLevelParameteriv");
    ("glIsEnabled", "pfnIsEnabled");
    ("glDepthRange", "pfnDepthRange");
    ("glViewport", "pfnViewport");
    ("glDrawArrays", "pfnDrawArrays");
    ("glDrawElements", "pfnDrawElements");
    ("glGetPointerv", "pfnGetPointerv");
    ("glPolygonOffset", "pfnPolygonOffset");
    ("glCopyTexImage1D", "pfnCopyTexImage1D");
    ("glCopyTexImage2D", "pfnCopyTexImage2D");
    ("glCopyTexSubImage1D", "pfnCopyTexSubImage1D");
    ("glCopyTexSubImage2D", "pfnCopyTexSubImage2D");
    ("glTexSubImage1D", "pfnTexSubImage1D");
    ("glTexSubImage2D", "pfnTexSubImage2D");
    ("glBindTexture", "pfnBindTexture");
    ("glDeleteTextures", "pfnDeleteTextures");
    ("glGenTextures", "pfnGenTextures");
    ("glIsTexture", "pfnIsTexture") ].

(** The slot of a table row: a member of the object [this] for a method, a
    static for a free function. *)
Definition method_slot (this : nat) (row : string * string) : slot :=
  Member this (snd row).

Definition function_slot (row : string * string) : slot :=
  Static (snd row).

Definition all_slots (this : nat) : list slot :=
  map (method_slot this) wgl_entry_points ++ map function_slot gl_entry_points.

Fixpoint distinct (l : list string) : bool :=
  match l with
  | [] => true
  | x :: rest => negb (existsb (String.eqb x) rest) && distinct rest
  end.

(** ** Platforms to run the model on *)

(** A driver library at handle 28672 that exports the extension query (at
    28928), [fnA] and [fnB]; the extension query answers the sentinel 1 for
    [fnA], a real address for [fnB] and null for anything else. *)
Definition fake_os (tr : list Call) (c : Call) : Z :=
  match c with
  | LoadLibraryA _ => 28672
  | GetProcAddress _ name =>
      if String.eqb name "wglGetProcAddress" then 28928
      else if String.eqb name "fnA" then 40960
      else if String.eqb name "fnB" then 45056
      else 0
  | Indirect 28928 [VStr name] =>
      if String.eqb name "fnA" then 1
      else if String.eqb name "fnB" then 45312
      else 0
  | Indirect _ _ => 7
  | GetDC _ => 80
  | ChoosePixelFormat _ _ => 5
  | SetPixelFormat _ _ _ => 1
  | GdiSwapBuffers _ => 1
  | FreeLibrary _ => 1
  end.

(** A driver whose extension query never answers the same address twice:
    the answer grows with the number of calls made before. *)
Definition drifting_os (tr : list Call) (c : Call) : Z :=
  match c with
  | LoadLibraryA _ => 28672
  | GetProcAddress _ name =>
      if String.eqb name "wglGetProcAddress" then 28928 else 0
  | Indirect 28928 _ => 36864 + Z.of_nat (length tr)
  | Indirect _ _ => 7
  | _ => 1
  end.

(** No opengl32.dll on the machine. *)
Definition no_driver_os (tr : list Call) (c : Call) : Z :=
  match c with
  | LoadLibraryA _ => 0
  | GetProcAddress _ _ => 0
  | _ => 1
  end.

(** The library loads and exports [glClear], but not the extension query. *)
Definition no_query_os (tr : list Call) (c : Call) : Z :=
  match c with
  | LoadLibraryA _ => 28672
  | GetProcAddress _ name =>
      if String.eqb name "glClear" then 40960 else 0
  | _ => 1
  end.

(** A window without a device context. *)
Definition no_dc_os (tr : list Call) (c : Call) : Z :=
  match c with
  | GetDC _ => 0
  | _ => 1
  end.

(** Format negotiation finds nothing (index 0), and the format is refused. *)
Definition no_format_os (tr : list Call) (c : Call) : Z :=
  match c with
  | GetDC _ => 80
  | ChoosePixelFormat _ _ => 0
  | SetPixelFormat _ _ _ => 0
  | _ => 1
  end.

(** Format negotiation finds format 5, and the surface refuses it. *)
Definition refused_format_os (tr : list Call) (c : Call) : Z :=
  match c with
  | GetDC _ => 80
  | ChoosePixelFormat _ _ => 5
  | SetPixelFormat _ _ _ => 0
  | _ => 1
  end.

(** A machine whose loader has been constructed against [fake_os]. *)
Definition loaded : Machine :=
  mkMachine
    [LoadLibraryA "opengl32.dll"; GetProcAddress 28672 "wglGetProcAddress"]
    (Some (mkLoader 28672 28928)) (fun _ => 0) 0.

(** ** The application of Main.cpp *)

(** The window class as [initApplication] fills it in. *)
Record WNDCLASSEXW : Type := mkWNDCLASSEXW {
  cbSize : Z;
  style : Z;
  lpfnWndProc : Z;
  cbClsExtra : Z;
  cbWndExtra : Z;
  hInstance : Z;
  hIcon : Z;
  hCursor : Z;
  hbrBackground : Z;
  lpszMenuName : Z;
  lpszClassName : string;
  hIconSm : Z
}.

(** The data members of [class GLApplication]; [m_pContext] is the shared
    pointer, [None] when it is empty. *)
Record GLApplication : Type := mkGLApplication {
  m_wcl : WNDCLASSEXW;
  m_hWnd : Z;
  m_hInstance : Z;
  m_hDC : Z;
  m_hRC : Z;
  m_pszWindowName : string;
  m_windowWidth : Z;
  m_windowHeight : Z;
  m_pContext : option nat
}.

Definition set_pContext (ctx : option nat) (app : GLApplication) : GLApplication :=
  mkGLApplication (m_wcl app) (m_hWnd app) (m_hInstance app) (m_hDC app)
    (m_hRC app) (m_pszWindowName app) (m_windowWidth app) (m_windowHeight app)
    ctx.

Definition set_hDC (hDC : Z) (app : GLApplication) : GLApplication :=
  mkGLApplication (m_wcl app) (m_hWnd app) (m_hInstance app) hDC
    (m_hRC app) (m_pszWindowName app) (m_windowWidth app) (m_windowHeight app)
    (m_pContext app).

Definition set_hRC (hRC : Z) (app : GLApplication) : GLApplication :=
  mkGLApplication (m_wcl app) (m_hWnd app) (m_hInstance app) (m_hDC app)
    hRC (m_pszWindowName app) (m_windowWidth app) (m_windowHeight app)
    (m_pContext app).

(** A [GLApplication::Error], by its message. *)
Definition Error : Type := string.

(** The two platform calls of [GLApplication::destroy] that do not go
    through OpenGL.cpp.  The program discards what they return. *)
Inductive WinCall : Type :=
| ReleaseDC (hWnd : Z) (hDC : Z)
| UnregisterClassW (lpClassName : string) (hInstance : Z).

(** Clear masks of <GL/glcorearb.h>. *)
Definition GL_DEPTH_BUFFER_BIT : Z := 0x00000100.
Definition GL_STENCIL_BUFFER_BIT : Z := 0x00000400.
Definition GL_COLOR_BUFFER_BIT : Z := 0x00004000.

(** The [float] literals of [render], as IEEE 754 single-precision bit
    patterns. *)
Definition float_0_3 : Z := 0x3e99999a.
Definition float_0_5 : Z := 0x3f000000.
Definition float_0_9 : Z := 0x3f666666.
Definition float_0_0 : Z := 0x00000000.

(** ** Reading a trace *)

Definition is_load (c : Call) : bool :=
  match c with
  | LoadLibraryA _ => true
  | _ => false
  end.

(** How many times a library was loaded. *)
Definition loads (tr : list Call) : nat := length (filter is_load tr).

(** The singleton is still to be constructed. *)
Definition unborn (m : Machine) : nat :=
  match theInstance m with
  | None => 1%nat
  | Some _ => 0%nat
  end.

(** The loader and the trace agree: every [GetProcAddress] so far was made
    on the handle the singleton holds, which is not null, and a singleton
    with a query pointer has a library. *)
Definition loader_sound (m : Machine) : Prop :=
  match theInstance m with
  | None => forall h n, ~ In (GetProcAddress h n) (trace m)
  | Some l =>
      (m_pfnWglGetProcAddress l <> 0 -> m_hLibGL l <> 0)
      /\ forall h n,
           In (GetProcAddress h n) (trace m) -> h = m_hLibGL l /\ h <> 0
  end.

(** A platform that hands out a different device context each time it is
    asked, and whose driver exports everything through the library. *)
Definition fresh_dc_os (tr : list Call) (c : Call) : Z :=
  match c with
  | LoadLibraryA _ => 28672
  | GetProcAddress _ name =>
      if String.eqb name "wglGetProcAddress" then 28928
      else if String.eqb name "wglCreateContext" then 40960
      else if String.eqb name "wglMakeCurrent" then 40976
      else if String.eqb name "wglDeleteContext" then 40992
      else 0
  | Indirect 28928 _ => 0
  | Indirect 40960 _ => 4096
  | Indirect _ _ => 1
  | GetDC _ => 80 + Z.of_nat (length tr)
  | ChoosePixelFormat _ _ => 5
  | _ => 1
  end.

(** A window that yields a device context once and never again. *)
Definition one_dc_os (tr : list Call) (c : Call) : Z :=
  match c with
  | GetDC _ => match tr with [] => 80 | _ => 0 end
  | ChoosePixelFormat _ _ => 5
  | _ => 1
  end.

(** The application object before [initOpenGL], with its window. *)
Definition fresh_app : GLApplication :=
  mkGLApplication
    (mkWNDCLASSEXW 80 35 0 0 0 4194304 0 0 0 0 "GLApplicationWindowClass" 0)
    4660 4194304 0 0 "OpenGL Application" 640 480 None.

(** * The program *)

Section Program.

(** Width of a pointer in bits (32 for a Win32 build, 64 for x64). *)
Variable ptr_bits : N.

(** Whether the build defines [NDEBUG], which turns [assert] into nothing. *)
Variable NDEBUG : bool.

(** The platform: its answer to a call, given the calls made before it. *)
Variable os : list Call -> Call -> Z.

Definition wrap (z : Z) : Z := z mod 2 ^ Z.of_N ptr_bits.

(** [reinterpret_cast<void*>(i)] for an integer literal [i]. *)
Definition reinterpret_cast_ptr (i : Z) : Z := wrap i.

(** A platform call; the answer is what the oracle says. *)
Definition call (c : Call) : M Z :=
  fun m => Done (os (trace m) c) (log c m).

(** A platform call whose result is stored in a pointer-sized variable. *)
Definition call_ptr (c : Call) : M Z :=
  r <- call c ;; ret (wrap r).

(** A call through a function pointer held in a variable. *)
Definition call_through (pfn : Z) (args : list value) : M Z :=
  if pfn =? 0 then stop NullCall else call (Indirect pfn args).

(** [assert(e)] of <cassert>. *)
Definition assert (e : bool) : M unit :=
  if NDEBUG then ret tt
  else if e then ret tt else stop AssertionFailed.

(** *** Loader *)

(** [Loader::Loader()] *)
Definition Loader_ctor : M Loader :=
  hLibGL <- call_ptr (LoadLibraryA "opengl32.dll") ;;
  if negb (hLibGL =? 0) then
    pfn <- call_ptr (GetProcAddress hLibGL "wglGetProcAddress") ;;
    ret (mkLoader hLibGL pfn)
  else
    ret (mkLoader hLibGL 0).

(** [Loader::~Loader()] *)
Definition Loader_dtor (this : Loader) : M Loader :=
  if negb (m_hLibGL this =? 0) then
    _ <- call (FreeLibrary (m_hLibGL this)) ;;
    ret (mkLoader 0 (m_pfnWglGetProcAddress this))
  else
    ret this.

(** [Loader::instance()]: the function-local static is constructed by the
    first call. *)
Definition Loader_instance : M Loader :=
  o <- get_instance ;;
  match o with
  | Some l => ret l
  | None =>
      l <- Loader_ctor ;;
      put_instance l ;;
      ret l
  end.

(** [Loader::getProcAddress(pszName)] *)
Definition getProcAddress (this : Loader) (pszName : string) : M Z :=
  let pfn := 0 in
  if negb (m_pfnWglGetProcAddress this =? 0) then
    pfn <- call_ptr (Indirect (m_pfnWglGetProcAddress this) [VStr pszName]) ;;
    if (pfn =? 0) || (pfn =? reinterpret_cast_ptr 1)
       || (pfn =? reinterpret_cast_ptr 2) || (pfn =? reinterpret_cast_ptr 3)
       || (pfn =? reinterpret_cast_ptr (-1))
    then call_ptr (GetProcAddress (m_hLibGL this) pszName)
    else ret pfn
  else
    ret pfn.

(** The expression [Loader::instance().getProcAddress(name)]. *)
Definition resolve (name : string) : M Z :=
  l <- Loader_instance ;;
  getProcAddress l name.

(** *** Per-symbol lazy cache *)

(** The macro [LOAD_ENTRYPOINT(name, var, type)]. *)
Definition LOAD_ENTRYPOINT (name : string) (var : slot) : M unit :=
  v <- read var ;;
  if v =? 0 then
    p <- resolve name ;;
    write var p ;;
    v' <- read var ;;
    assert (negb (v' =? 0))
  else
    ret tt.

(** The body every wrapper shares: load the slot, then call through it with
    the wrapper's own arguments.  A free [gl*] function declares the type of
    its pointer itself, with its own parameter list; the types of the
    [m_pfn*] members come with the class declaration and are taken to agree
    with the methods in the same way, so that no argument is converted on
    its way to the callee. *)
Definition entrypoint (name : string) (var : slot) (args : list value) : M Z :=
  LOAD_ENTRYPOINT name var ;;
  pfn <- read var ;;
  call_through pfn args.

(** *** OpenGLContext *)

(** Modelled from the spec: the declaration of [class OpenGLContext] (the
    module interface with its [m_pfn*] members and its constructor) is not
    among the sources.  A cache entry is "initially empty", so constructing
    an object hands out a fresh identity whose member slots have never been
    written and therefore still hold [nullptr]. *)
Definition new_OpenGLContext : M nat :=
  fun m => Done (next_this m)
    (mkMachine (trace m) (theInstance m) (slots m) (S (next_this m))).

(** [OpenGLContext::createForWindow(hWnd, pfd)]; the result is the shared
    pointer, [None] when it is empty. *)
Definition createForWindow (hWnd : Z) (ppfd : Z) : M (option nat) :=
  pContext <- new_OpenGLContext ;;
  hDC <- call_ptr (GetDC hWnd) ;;
  if hDC =? 0 then ret None
  else
    pf <- call (ChoosePixelFormat hDC ppfd) ;;
    ok <- call (SetPixelFormat hDC pf ppfd) ;;
    if ok =? 0 then ret None
    else ret (Some pContext).

Definition wglCopyContext
    (this : nat) (hglrcSource hglrcDest mask : Z) : M Z :=
  entrypoint "wglCopyContext" (Member this "m_pfnWglCopyContext")
    [VPtr hglrcSource; VPtr hglrcDest; VInt mask].

Definition wglCreateContext (this : nat) (hdc : Z) : M Z :=
  entrypoint "wglCreateContext" (Member this "m_pfnWglCreateContext")
    [VPtr hdc].

Definition wglCreateLayerContext (this : nat) (hdc iLayerPlane : Z) : M Z :=
  entrypoint "wglCreateLayerContext" (Member this "m_pfnWglCreateLayerContext")
    [VPtr hdc; VInt iLayerPlane].

Definition wglDeleteContext (this : nat) (hglrc : Z) : M Z :=
  entrypoint "wglDeleteContext" (Member this "m_pfnWglDeleteContext")
    [VPtr hglrc].

Definition wglDescribeLayerPlane
    (this : nat) (hdc iPixelFormat iLayerPlane nBytes plpd : Z) : M Z :=
  entrypoint "wglDescribeLayerPlane" (Member this "m_pfnWglDescribeLayerPlane")
    [VPtr hdc; VInt iPixelFormat; VInt iLayerPlane; VInt nBytes; VPtr plpd].

Definition wglGetCurrentContext (this : nat) : M Z :=
  entrypoint "wglGetCurrentContext" (Member this "m_pfnWglGetCurrentContext")
    [].

Definition wglGetCurrentDC (this : nat) : M Z :=
  entrypoint "wglGetCurrentDC" (Member this "m_pfnWglGetCurrentDC") [].

Definition wglGetLayerPaletteEntries
    (this : nat) (hdc iLayerPlane iStart cEntries pcr : Z) : M Z :=
  entrypoint "wglGetLayerPaletteEntries" (Member this "m_pfnWglGetLayerPaletteEntries")
    [VPtr hdc; VInt iLayerPlane; VInt iStart; VInt cEntries; VPtr pcr].

(** [reinterpret_cast<PROC>] of a pointer changes nothing. *)
Definition wglGetProcAddress (this : nat) (lpszProc : string) : M Z :=
  resolve lpszProc.

Definition wglMakeCurrent (this : nat) (hdc hglrc : Z) : M Z :=
  entrypoint "wglMakeCurrent" (Member this "m_pfnWglMakeCurrent")
    [VPtr hdc; VPtr hglrc].

Definition wglRealizeLayerPalette
    (this : nat) (hdc iLayerPlane bRealize : Z) : M Z :=
  entrypoint "wglRealizeLayerPalette" (Member this "m_pfnWglRealizeLayerPalette")
    [VPtr hdc; VInt iLayerPlane; VInt bRealize].

Definition wglSetLayerPaletteEntries
    (this : nat) (hdc iLayerPlane iStart cEntries pcr : Z) : M Z :=
  entrypoint "wglSetLayerPaletteEntries" (Member this "m_pfnWglSetLayerPaletteEntries")
    [VPtr hdc; VInt iLayerPlane; VInt iStart; VInt cEntries; VPtr pcr].

Definition wglShareLists (this : nat) (hglrc1 hglrc2 : Z) : M Z :=
  entrypoint "wglShareLists" (Member this "m_pfnWglShareLists")
    [VPtr hglrc1; VPtr hglrc2].

(** The commented-out lines of the source would have made this one more
    [LOAD_ENTRYPOINT] wrapper; what is compiled is the call of the
    statically imported [::SwapBuffers]. *)
Definition SwapBuffers (this : nat) (hdc : Z) : M Z :=
  call (GdiSwapBuffers hdc).

Definition wglSwapLayerBuffers (this : nat) (hdc fuPlanes : Z) : M Z :=
  entrypoint "wglSwapLayerBuffers" (Member this "m_pfnWglSwapLayerBuffers")
    [VPtr hdc; VInt fuPlanes].

Definition wglSwapMultipleBuffers (this : nat) (count toSwap : Z) : M Z :=
  entrypoint "wglSwapMultipleBuffers" (Member this "m_pfnWglSwapMultipleBuffers")
    [VInt count; VPtr toSwap].

Definition wglUseFontBitmapsA
    (this : nat) (hdc first count listBase : Z) : M Z :=
  entrypoint "wglUseFontBitmapsA" (Member this "m_pfnWglUseFontBitmapsA")
    [VPtr hdc; VInt first; VInt count; VInt listBase].

Definition wglUseFontBitmapsW
    (this : nat) (hdc first count listBase : Z) : M Z :=
  entrypoint "wglUseFontBitmapsW" (Member this "m_pfnWglUseFontBitmapsW")
    [VPtr hdc; VInt first; VInt count; VInt listBase].

Definition wglUseFontOutlinesA
    (this : nat) (hdc first count listBase deviation extrusion format lpgmf : Z) : M Z :=
  entrypoint "wglUseFontOutlinesA" (Member this "m_pfnWglUseFontOutlinesA")
    [VPtr hdc; VInt first; VInt count; VInt listBase; VReal deviation;
     VReal extrusion; VInt format; VPtr lpgmf].

Definition wglUseFontOutlinesW
    (this : nat) (hdc first count listBase deviation extrusion format lpgmf : Z) : M Z :=
  entrypoint "wglUseFontOutlinesW" (Member this "m_pfnWglUseFontOutlinesW")
    [VPtr hdc; VInt first; VInt count; VInt listBase; VReal deviation;
     VReal extrusion; VInt format; VPtr lpgmf].

(** *** GL_VERSION_1_0 *)

Definition glCullFace (mode : Z) : M unit :=
  _ <- entrypoint "glCullFace" (Static "pfnCullFace") [VInt mode] ;;
  ret tt.

Definition glFrontFace (mode : Z) : M unit :=
  _ <- entrypoint "glFrontFace" (Static "pfnFrontFace") [VInt mode] ;;
  ret tt.

Definition glHint (target mode : Z) : M unit :=
  _ <- entrypoint "glHint" (Static "pfnHint") [VInt target; VInt mode] ;;
  ret tt.

Definition glLineWidth (width : Z) : M unit :=
  _ <- entrypoint "glLineWidth" (Static "pfnLineWidth") [VReal width] ;;
  ret tt.

Definition glPointSize (size : Z) : M unit :=
  _ <- entrypoint "glPointSize" (Static "pfnPointSize") [VReal size] ;;
  ret tt.

Definition glPolygonMode (face mode : Z) : M unit :=
  _ <- entrypoint "glPolygonMode" (Static "pfnPolygonMode")
         [VInt face; VInt mode] ;;
  ret tt.

Definition glScissor (x y width height : Z) : M unit :=
  _ <- entrypoint "glScissor" (Static "pfnScissor")
         [VInt x; VInt y; VInt width; VInt height] ;;
  ret tt.

Definition glTexParameterf (target pname param : Z) : M unit :=
  _ <- entrypoint "glTexParameterf" (Static "pfnTexParameterf")
         [VInt target; VInt pname; VReal param] ;;
  ret tt.

Definition glTexParameterfv (target pname params : Z) : M unit :=
  _ <- entrypoint "glTexParameterfv" (Static "pfnTexParameterfv")
         [VInt target; VInt pname; VPtr params] ;;
  ret tt.

Definition glTexParameteri (target pname param : Z) : M unit :=
  _ <- entrypoint "glTexParameteri" (Static "pfnTexParameteri")
         [VInt target; VInt pname; VInt param] ;;
  ret tt.

Definition glTexParameteriv (target pname params : Z) : M unit :=
  _ <- entrypoint "glTexParameteriv" (Static "pfnTexParameteriv")
         [VInt target; VInt pname; VPtr params] ;;
  ret tt.

Definition glTexImage1D
    (target level internalformat width border format type pixels : Z) : M unit :=
  _ <- entrypoint "glTexImage1D" (Static "pfnTexImage1D")
         [VInt target; VInt level; VInt internalformat; VInt width;
          VInt border; VInt format; VInt type; VPtr pixels] ;;
  ret tt.

Definition glTexImage2D
    (target level internalformat width height border format type pixels : Z) : M unit :=
  _ <- entrypoint "glTexImage2D" (Static "pfnTexImage2D")
         [VInt target; VInt level; VInt internalformat; VInt width;
          VInt height; VInt border; VInt format; VInt type; VPtr pixels] ;;
  ret tt.

Definition glDrawBuffer (buf : Z) : M unit :=
  _ <- entrypoint "glDrawBuffer" (Static "pfnDrawBuffer") [VInt buf] ;;
  ret tt.

Definition glClear (mask : Z) : M unit :=
  _ <- entrypoint "glClear" (Static "pfnClear") [VInt mask] ;;
  ret tt.

Definition glClearColor (red green blue alpha : Z) : M unit :=
  _ <- entrypoint "glClearColor" (Static "pfnClearColor")
         [VReal red; VReal green; VReal blue; VReal alpha] ;;
  ret tt.

Definition glClearStencil (s : Z) : M unit :=
  _ <- entrypoint "glClearStencil" (Static "pfnClearStencil") [VInt s] ;;
  ret tt.

Definition glClearDepth (depth : Z) : M unit :=
  _ <- entrypoint "glClearDepth" (Static "pfnClearDepth") [VReal depth] ;;
  ret tt.

Definition glStencilMask (mask : Z) : M unit :=
  _ <- entrypoint "glStencilMask" (Static "pfnStencilMask") [VInt mask] ;;
  ret tt.

Definition glColorMask (red green blue alpha : Z) : M unit :=
  _ <- entrypoint "glColorMask" (Static "pfnColorMask")
         [VInt red; VInt green; VInt blue; VInt alpha] ;;
  ret tt.

Definition glDepthMask (flag : Z) : M unit :=
  _ <- entrypoint "glDepthMask" (Static "pfnDepthMask") [VInt flag] ;;
  ret tt.

Definition glDisable (cap : Z) : M unit :=
  _ <- entrypoint "glDisable" (Static "pfnDisable") [VInt cap] ;;
  ret tt.

Definition glEnable (cap : Z) : M unit :=
  _ <- entrypoint "glEnable" (Static "pfnEnable") [VInt cap] ;;
  ret tt.

Definition glFinish : M unit :=
  _ <- entrypoint "glFinish" (Static "pfnFinish") [] ;;
  ret tt.

Definition glFlush : M unit :=
  _ <- entrypoint "glFlush" (Static "pfnFlush") [] ;;
  ret tt.

Definition glBlendFunc (sfactor dfactor : Z) : M unit :=
  _ <- entrypoint "glBlendFunc" (Static "pfnBlendFunc")
         [VInt sfactor; VInt dfactor] ;;
  ret tt.

Definition glLogicOp (opcode : Z) : M unit :=
  _ <- entrypoint "glLogicOp" (Static "pfnLogicOp") [VInt opcode] ;;
  ret tt.

Definition glStencilFunc (func ref mask : Z) : M unit :=
  _ <- entrypoint "glStencilFunc" (Static "pfnStencilFunc")
         [VInt func; VInt ref; VInt mask] ;;
  ret tt.

Definition glStencilOp (fail zfail zpass : Z) : M unit :=
  _ <- entrypoint "glStencilOp" (Static "pfnStencilOp")
         [VInt fail; VInt zfail; VInt zpass] ;;
  ret tt.

Definition glDepthFunc (func : Z) : M unit :=
  _ <- entrypoint "glDepthFunc" (Static "pfnDepthFunc") [VInt func] ;;
  ret tt.

Definition glPixelStoref (pname param : Z) : M unit :=
  _ <- entrypoint "glPixelStoref" (Static "pfnPixelStoref")
         [VInt pname; VReal param] ;;
  ret tt.

Definition glPixelStorei (pname param : Z) : M unit :=
  _ <- entrypoint "glPixelStorei" (Static "pfnPixelStorei")
         [VInt pname; VInt param] ;;
  ret tt.

Definition glReadBuffer (src : Z) : M unit :=
  _ <- entrypoint "glReadBuffer" (Static "pfnReadBuffer") [VInt src] ;;
  ret tt.

Definition glReadPixels (x y width height format type pixels : Z) : M unit :=
  _ <- entrypoint "glReadPixels" (Static "pfnReadPixels")
         [VInt x; VInt y; VInt width; VInt height; VInt format; VInt type;
          VPtr pixels] ;;
  ret tt.

Definition glGetBooleanv (pname data : Z) : M unit :=
  _ <- entrypoint "glGetBooleanv" (Static "pfnGetBooleanv")
         [VInt pname; VPtr data] ;;
  ret tt.

Definition glGetDoublev (pname data : Z) : M unit :=
  _ <- entrypoint "glGetDoublev" (Static "pfnGetDoublev")
         [VInt pname; VPtr data] ;;
  ret tt.

Definition glGetError : M Z :=
  entrypoint "glGetError" (Static "pfnGetError") [].

Definition glGetFloatv (pname data : Z) : M unit :=
  _ <- entrypoint "glGetFloatv" (Static "pfnGetFloatv")
         [VInt pname; VPtr data] ;;
  ret tt.

Definition glGetIntegerv (pname data : Z) : M unit :=
  _ <- entrypoint "glGetIntegerv" (Static "pfnGetIntegerv")
         [VInt pname; VPtr data] ;;
  ret tt.

Definition glGetString (name : Z) : M Z :=
  entrypoint "glGetString" (Static "pfnGetString") [VInt name].

Definition glGetTexImage (target level format type pixels : Z) : M unit :=
  _ <- entrypoint "glGetTexImage" (Static "pfnGetTexImage")
         [VInt target; VInt level; VInt format; VInt type; VPtr pixels] ;;
  ret tt.

Definition glGetTexParameterfv (target pname params : Z) : M unit :=
  _ <- entrypoint "glGetTexParameterfv" (Static "pfnGetTexParameterfv")
         [VInt target; VInt pname; VPtr params] ;;
  ret tt.

Definition glGetTexParameteriv (target pname params : Z) : M unit :=
  _ <- entrypoint "glGetTexParameteriv" (Static "pfnGetTexParameteriv")
         [VInt target; VInt pname; VPtr params] ;;
  ret tt.

Definition glGetTexLevelParameterfv (target level pname params : Z) : M unit :=
  _ <- entrypoint "glGetTexLevelParameterfv" (Static "pfnGetTexLevelParameterfv")
         [VInt target; VInt level; VInt pname; VPtr params] ;;
  ret tt.

Definition glGetTexLevelParameteriv (target level pname params : Z) : M unit :=
  _ <- entrypoint "glGetTexLevelParameteriv" (Static "pfnGetTexLevelParameteriv")
         [VInt target; VInt level; VInt pname; VPtr params] ;;
  ret tt.

Definition glIsEnabled (cap : Z) : M Z :=
  entrypoint "glIsEnabled" (Static "pfnIsEnabled") [VInt cap].

Definition glDepthRange (n f : Z) : M unit :=
  _ <- entrypoint "glDepthRange" (Static "pfnDepthRange") [VReal n; VReal f] ;;
  ret tt.

Definition glViewport (x y width height : Z) : M unit :=
  _ <- entrypoint "glViewport" (Static "pfnViewport")
         [VInt x; VInt y; VInt width; VInt height] ;;
  ret tt.

(** *** GL_VERSION_1_1 *)

Definition glDrawArrays (mode first count : Z) : M unit :=
  _ <- entrypoint "glDrawArrays" (Static "pfnDrawArrays")
         [VInt mode; VInt first; VInt count] ;;
  ret tt.

Definition glDrawElements (mode count type indices : Z) : M unit :=
  _ <- entrypoint "glDrawElements" (Static "pfnDrawElements")
         [VInt mode; VInt count; VInt type; VPtr indices] ;;
  ret tt.

Definition glGetPointerv (pname params : Z) : M unit :=
  _ <- entrypoint "glGetPointerv" (Static "pfnGetPointerv")
         [VInt pname; VPtr params] ;;
  ret tt.

Definition glPolygonOffset (factor units : Z) : M unit :=
  _ <- entrypoint "glPolygonOffset" (Static "pfnPolygonOffset")
         [VReal factor; VReal units] ;;
  ret tt.

Definition glCopyTexImage1D
    (target level internalformat x y width border : Z) : M unit :=
  _ <- entrypoint "glCopyTexImage1D" (Static "pfnCopyTexImage1D")
         [VInt target; VInt level; VInt internalformat; VInt x; VInt y;
          VInt width; VInt border] ;;
  ret tt.

Definition glCopyTexImage2D
    (target level internalformat x y width height border : Z) : M unit :=
  _ <- entrypoint "glCopyTexImage2D" (Static "pfnCopyTexImage2D")
         [VInt target; VInt level; VInt internalformat; VInt x; VInt y;
          VInt width; VInt height; VInt border] ;;
  ret tt.

Definition glCopyTexSubImage1D (target level xoffset x y width : Z) : M unit :=
  _ <- entrypoint "glCopyTexSubImage1D" (Static "pfnCopyTexSubImage1D")
         [VInt target; VInt level; VInt xoffset; VInt x; VInt y; VInt width] ;;
  ret tt.

Definition glCopyTexSubImage2D
    (target level xoffset yoffset x y width height : Z) : M unit :=
  _ <- entrypoint "glCopyTexSubImage2D" (Static "pfnCopyTexSubImage2D")
         [VInt target; VInt level; VInt xoffset; VInt yoffset; VInt x;
          VInt y; VInt width; VInt height] ;;
  ret tt.

Definition glTexSubImage1D
    (target level xoffset width format type pixels : Z) : M unit :=
  _ <- entrypoint "glTexSubImage1D" (Static "pfnTexSubImage1D")
         [VInt target; VInt level; VInt xoffset; VInt width; VInt format;
          VInt type; VPtr pixels] ;;
  ret tt.

Definition glTexSubImage2D
    (target level xoffset yoffset width height format type pixels : Z) : M unit :=
  _ <- entrypoint "glTexSubImage2D" (Static "pfnTexSubImage2D")
         [VInt target; VInt level; VInt xoffset; VInt yoffset; VInt width;
          VInt height; VInt format; VInt type; VPtr pixels] ;;
  ret tt.

Definition glBindTexture (target texture : Z) : M unit :=
  _ <- entrypoint "glBindTexture" (Static "pfnBindTexture")
         [VInt target; VInt texture] ;;
  ret tt.

Definition glDeleteTextures (n textures : Z) : M unit :=
  _ <- entrypoint "glDeleteTextures" (Static "pfnDeleteTextures")
         [VInt n; VPtr textures] ;;
  ret tt.

Definition glGenTextures (n textures : Z) : M unit :=
  _ <- entrypoint "glGenTextures" (Static "pfnGenTextures")
         [VInt n; VPtr textures] ;;
  ret tt.

Definition glIsTexture (texture : Z) : M Z :=
  entrypoint "glIsTexture" (Static "pfnIsTexture") [VInt texture].

(** *** Runs of module operations *)

(** What a client of the module can do, one step at a time: invoke a
    [LOAD_ENTRYPOINT] wrapper (given by its symbol, its slot and its
    arguments), query an address, present the back buffer, make a context
    object. *)
Inductive invocation : Type :=
| Invoke (name : string) (var : slot) (args : list value)
| Query (this : nat) (lpszProc : string)
| Present (this : nat) (hdc : Z)
| Create (hWnd : Z) (ppfd : Z).

Definition exec (i : invocation) : M unit :=
  match i with
  | Invoke name var args => _ <- entrypoint name var args ;; ret tt
  | Query this lpszProc => _ <- wglGetProcAddress this lpszProc ;; ret tt
  | Present this hdc => _ <- SwapBuffers this hdc ;; ret tt
  | Create hWnd ppfd => _ <- createForWindow hWnd ppfd ;; ret tt
  end.

Fixpoint run (prog : list invocation) : M unit :=
  match prog with
  | [] => ret tt
  | i :: rest => exec i ;; run rest
  end.

(** [n] calls of [OpenGLContext::wglGetProcAddress] for the same name. *)
Fixpoint query_n (n : nat) (this : nat) (lpszProc : string) : M (list Z) :=
  match n with
  | O => ret []
  | S k =>
      r <- wglGetProcAddress this lpszProc ;;
      rs <- query_n k this lpszProc ;;
      ret (r :: rs)
  end.

(** *** GLApplication *)

(** The number of platform calls OpenGL.cpp has made so far; a call made by
    Main.cpp itself is recorded with it, which places it among them. *)
Definition stamp : M nat :=
  fun m => Done (length (trace m)) m.

(** [GLApplication::initOpenGL()].  The descriptor is a local of the
    function; the model knows it by its address [ppfd], as the platform
    does.  The result carries the object as the function leaves it and the
    [Error] it throws, if it throws. *)
Definition initOpenGL (ppfd : Z) (app : GLApplication)
    : M (GLApplication * option Error) :=
  pContext <- createForWindow (m_hWnd app) ppfd ;;
  let app := set_pContext pContext app in
  match pContext with
  | None => ret (app, Some "GLContext::createForWindow() failed.")
  | Some this =>
      hDC <- call_ptr (GetDC (m_hWnd app)) ;;
      let app := set_hDC hDC app in
      if hDC =? 0 then ret (app, Some "GetDC() failed.")
      else
        hRC <- wglCreateContext this (m_hDC app) ;;
        let app := set_hRC (wrap hRC) app in
        if m_hRC app =? 0
        then ret (app, Some "GLContext::wglCreateContext() failed.")
        else
          ok <- wglMakeCurrent this (m_hDC app) (m_hRC app) ;;
          if ok =? 0
          then ret (app, Some "GLContext::wglMakeCurrent() failed.")
          else ret (app, None)
  end.

(** [GLApplication::destroy()].  Beside the object it returns the calls of
    [ReleaseDC] and [UnregisterClassW] it made, each with its [stamp]. *)
Definition destroy (app : GLApplication)
    : M (GLApplication * list (nat * WinCall)) :=
  app <- match m_pContext app with
         | Some this =>
             if negb (m_hRC app =? 0) then
               _ <- wglMakeCurrent this (m_hDC app) 0 ;;
               _ <- wglDeleteContext this (m_hRC app) ;;
               ret (set_hRC 0 app)
             else ret app
         | None => ret app
         end ;;
  released <- (if negb (m_hDC app =? 0) then
                 t <- stamp ;;
                 ret (set_hDC 0 app, [(t, ReleaseDC (m_hWnd app) (m_hDC app))])
               else ret (app, [])) ;;
  t <- stamp ;;
  ret (fst released,
       snd released
         ++ [(t, UnregisterClassW (lpszClassName (m_wcl (fst released)))
                   (m_hInstance (fst released)))]).

(** [GLApplication::render()] *)
Definition render (app : GLApplication) : M unit :=
  glViewport 0 0 (m_windowWidth app) (m_windowHeight app) ;;
  glClearColor float_0_3 float_0_5 float_0_9 float_0_0 ;;
  glClear (Z.lor (Z.lor GL_COLOR_BUFFER_BIT GL_DEPTH_BUFFER_BIT)
                 GL_STENCIL_BUFFER_BIT).

(** [render] for each of a list of client-area sizes, in order. *)
Fixpoint render_all (app : GLApplication) (sizes : list (Z * Z)) : M unit :=
  match sizes with
  | [] => ret tt
  | (w, h) :: rest =>
      render (mkGLApplication (m_wcl app) (m_hWnd app) (m_hInstance app)
                (m_hDC app) (m_hRC app) (m_pszWindowName app) w h
                (m_pContext app)) ;;
      render_all app rest
  end.

(** The platform calls of one [render] once its three slots are filled. *)
Definition frame_calls (s : slot -> Z) (size : Z * Z) : list Call :=
  [Indirect (s (Static "pfnViewport"))
     [VInt 0; VInt 0; VInt (fst size); VInt (snd size)];
   Indirect (s (Static "pfnClearColor"))
     [VReal float_0_3; VReal float_0_5; VReal float_0_9; VReal float_0_0];
   Indirect (s (Static "pfnClear")) [VInt 17664]].

(** What a computation may have changed: [m'] continues [m] when it has the
    calls of [m] and possibly more, the same cache slots at every [var] but
    those listed in [written], and the same object counter. *)
Definition continues (written : list slot) (m m' : Machine) : Prop :=
  (exists cs, trace m' = trace m ++ cs)
  /\ (forall var, ~ In var written -> slots m' var = slots m var)
  /\ next_this m' = next_this m.

(** How often the call [c] occurs in a trace. *)
Definition occurrences (c : Call) (tr : list Call) : nat :=
  count_occ Call_eq_dec tr c.

(** Pixel formats are numbered from one: the platform refuses to set
    format 0, which is what [ChoosePixelFormat] answers when it finds no
    format. *)
Definition one_based_formats : Prop :=
  forall tr hdc ppfd, os tr (SetPixelFormat hdc 0 ppfd) = 0.

(** The wrapper [w] of the symbol [name], with the slot [var], invoked with
    the arguments [args].  When it returns, the last platform call is the
    call through the address in its slot with exactly [args], and what it
    returns is [result] of the answer to that call; the address is the one
    the slot held already, or, for an empty slot, the one the loader has
    just answered for [name], the call following the loader's calls.  It
    fails to return only on an empty slot and a symbol that resolves to
    null, and it does return on a filled slot or a symbol that resolves. *)
Definition forwards_as {A : Type} (result : Z -> A) (w : M A)
    (name : string) (var : slot) (args : list value) : Prop :=
  forall m,
    match w m with
    | Done r m' =>
        exists pre,
          slots m' var <> 0
          /\ trace m' = pre ++ [Indirect (slots m' var) args]
          /\ r = result (os pre (Indirect (slots m' var) args))
          /\ (slots m var <> 0 ->
              slots m' var = slots m var /\ pre = trace m)
          /\ (slots m var = 0 ->
              exists m1,
                resolve name m = Done (slots m' var) m1 /\ pre = trace m1)
    | Stopped f m' =>
        slots m var = 0 /\ exists m1, resolve name m = Done 0 m1
    end
    /\ (slots m var <> 0
        \/ (exists p m1, resolve name m = Done p m1 /\ p <> 0) ->
        exists r m', w m = Done r m').

(** A wrapper that returns what the callee returns. *)
Definition forwards (w : M Z) : string -> slot -> list value -> Prop :=
  forwards_as (fun r => r) w.

(** A wrapper of a [void] function. *)
Definition passes_on (w : M unit) : string -> slot -> list value -> Prop :=
  forwards_as (fun _ => tt) w.

(** * Properties *)

(** ** Pointer-sized values *)

Lemma wrap_small (z : Z) :
  0 <= z < 2 ^ Z.of_N ptr_bits -> wrap z = z.
Proof. intros H. unfold wrap. apply Z.mod_small. exact H. Qed.

Lemma two_bits_four : (2 <= ptr_bits)%N -> 4 <= 2 ^ Z.of_N ptr_bits.
Proof.
  intros H. change 4 with (2 ^ 2).
  apply Z.pow_le_mono_r; lia.
Qed.

Lemma cast_minus_one : reinterpret_cast_ptr (-1) = Z.ones (Z.of_N ptr_bits).
Proof.
  unfold reinterpret_cast_ptr, wrap.
  rewrite Z.ones_equiv.
  assert (Hp : 0 < 2 ^ Z.of_N ptr_bits) by (apply Z.pow_pos_nonneg; lia).
  symmetry. apply Z.mod_unique with (q := -1); lia.
Qed.

Lemma cast_literal (i : Z) :
  (2 <= ptr_bits)%N -> 0 <= i <= 3 -> reinterpret_cast_ptr i = i.
Proof.
  intros Hw Hi. unfold reinterpret_cast_ptr. apply wrap_small.
  pose proof (two_bits_four Hw). lia.
Qed.

Lemma sentinel_test (p : Z) :
  (2 <= ptr_bits)%N ->
  (p =? 0) || (p =? reinterpret_cast_ptr 1)
    || (p =? reinterpret_cast_ptr 2) || (p =? reinterpret_cast_ptr 3)
    || (p =? reinterpret_cast_ptr (-1)) = true
  <-> (p = 0 \/ p = 1 \/ p = 2 \/ p = 3 \/ p = Z.ones (Z.of_N ptr_bits)).
Proof.
  intros Hw.
  rewrite cast_minus_one, !cast_literal by (assumption || lia).
  rewrite !orb_true_iff, !Z.eqb_eq. tauto.
Qed.

(** ** The resolver *)

Lemma getProcAddress_unfold (this : Loader) (name : string) (m : Machine) :
  m_pfnWglGetProcAddress this <> 0 ->
  getProcAddress this name m =
    let query := Indirect (m_pfnWglGetProcAddress this) [VStr name] in
    let r := wrap (os (trace m) query) in
    if (r =? 0) || (r =? reinterpret_cast_ptr 1)
       || (r =? reinterpret_cast_ptr 2) || (r =? reinterpret_cast_ptr 3)
       || (r =? reinterpret_cast_ptr (-1))
    then
      let lookup := GetProcAddress (m_hLibGL this) name in
      Done (wrap (os (trace m ++ [query]) lookup)) (log lookup (log query m))
    else Done r (log query m).
Proof.
  intros Hq. apply Z.eqb_neq in Hq.
  unfold getProcAddress. rewrite Hq. cbn.
  match goal with |- context [if ?b then _ else _] => destruct b end;
    reflexivity.
Qed.

(** C1.  With the extension-query pointer in hand, [Loader::getProcAddress]
    first calls it with the name.  When the answer is null, 1, 2, 3 or the
    all-ones pattern, the result is that of [GetProcAddress] on the library
    handle, called next; for any other answer the result is the answer and
    [GetProcAddress] is not called. *)
Theorem getProcAddress_extension_then_fallback
    (this : Loader) (name : string) (m : Machine) :
  (2 <= ptr_bits)%N ->
  m_pfnWglGetProcAddress this <> 0 ->
  let query := Indirect (m_pfnWglGetProcAddress this) [VStr name] in
  let lookup := GetProcAddress (m_hLibGL this) name in
  let r := wrap (os (trace m) query) in
  let failed :=
    r = 0 \/ r = 1 \/ r = 2 \/ r = 3 \/ r = Z.ones (Z.of_N ptr_bits) in
  (failed ->
     getProcAddress this name m
       = Done (wrap (os (trace m ++ [query]) lookup)) (log lookup (log query m)))
  /\ (~ failed ->
     getProcAddress this name m = Done r (log query m)).
Proof.
  intros Hw Hq query lookup r failed.
  pose proof (getProcAddress_unfold this name m Hq) as E. cbn zeta in E.
  fold query lookup r in E.
  pose proof (sentinel_test r Hw) as T. fold failed in T.
  split; intros Hf.
  - apply T in Hf. rewrite Hf in E. exact E.
  - destruct ((r =? 0) || (r =? reinterpret_cast_ptr 1)
       || (r =? reinterpret_cast_ptr 2) || (r =? reinterpret_cast_ptr 3)
       || (r =? reinterpret_cast_ptr (-1))) eqn:B.
    + exfalso. apply Hf, T. reflexivity.
    + exact E.
Qed.

(** ** Stepping through the loader *)

Lemma continues_refl (m : Machine) : continues [] m m.
Proof.
  repeat split; auto. exists []. now rewrite app_nil_r.
Qed.

Lemma continues_trans (w1 w2 : list slot) (m1 m2 m3 : Machine) :
  continues w1 m1 m2 -> continues w2 m2 m3 -> continues (w1 ++ w2) m1 m3.
Proof.
  intros ((cs1 & T1) & S1 & N1) ((cs2 & T2) & S2 & N2).
  repeat split.
  - exists (cs1 ++ cs2). now rewrite T2, T1, <- app_assoc.
  - intros var Hn. rewrite S2, S1; auto; intros Hin; apply Hn, in_or_app; auto.
  - congruence.
Qed.

Lemma continues_log (c : Call) (m : Machine) : continues [] m (log c m).
Proof. repeat split; auto. now exists [c]. Qed.

Lemma Loader_ctor_returns (m : Machine) :
  exists l cs,
    Loader_ctor m
      = Done l (mkMachine (trace m ++ cs) (theInstance m) (slots m) (next_this m))
    /\ cs <> [].
Proof.
  unfold Loader_ctor. cbn.
  destruct (wrap (os (trace m) (LoadLibraryA "opengl32.dll")) =? 0); cbn.
  - do 2 eexists. split; [reflexivity | discriminate].
  - do 2 eexists. unfold log; cbn. rewrite <- app_assoc.
    split; [reflexivity | discriminate].
Qed.

Lemma Loader_instance_cached (l : Loader) (m : Machine) :
  theInstance m = Some l -> Loader_instance m = Done l m.
Proof. intros E. unfold Loader_instance. cbn. now rewrite E. Qed.

Lemma Loader_instance_first (m : Machine) :
  theInstance m = None ->
  exists l m1,
    Loader_ctor m = Done l m1
    /\ Loader_instance m
         = Done l (mkMachine (trace m1) (Some l) (slots m1) (next_this m1)).
Proof.
  intros E. unfold Loader_instance. cbn -[Loader_ctor]. rewrite E.
  destruct (Loader_ctor_returns m) as (l & cs & -> & _).
  do 2 eexists. split; reflexivity.
Qed.

Lemma Loader_instance_returns (m : Machine) :
  exists l m1,
    Loader_instance m = Done l m1
    /\ theInstance m1 = Some l /\ continues [] m m1.
Proof.
  destruct (theInstance m) as [l|] eqn:E.
  - exists l, m. split; [now apply Loader_instance_cached|].
    split; [assumption | apply continues_refl].
  - destruct (Loader_instance_first m E) as (l & m1 & C & I).
    destruct (Loader_ctor_returns m) as (l' & cs & C' & _).
    rewrite C' in C. injection C as <- <-.
    do 2 eexists. split; [exact I|]. cbn.
    repeat split; auto. now exists cs.
Qed.

Lemma getProcAddress_returns (this : Loader) (name : string) (m : Machine) :
  exists r m1,
    getProcAddress this name m = Done r m1
    /\ theInstance m1 = theInstance m /\ continues [] m m1.
Proof.
  unfold getProcAddress.
  destruct (m_pfnWglGetProcAddress this =? 0); cbn.
  - do 2 eexists. split; [reflexivity|]. split; [reflexivity | apply continues_refl].
  - match goal with |- context [if ?b then _ else _] => destruct b end; cbn.
    + do 2 eexists. split; [reflexivity|]. split; [reflexivity|].
      repeat split; auto. unfold log; cbn. eexists. now rewrite <- app_assoc.
    + do 2 eexists. split; [reflexivity|]. split; [reflexivity|].
      apply continues_log.
Qed.

Lemma resolve_returns (name : string) (m : Machine) :
  exists p m1,
    resolve name m = Done p m1
    /\ theInstance m1 <> None /\ continues [] m m1.
Proof.
  unfold resolve. cbn -[Loader_instance getProcAddress].
  destruct (Loader_instance_returns m) as (l & m0 & -> & I & C0).
  destruct (getProcAddress_returns l name m0) as (r & m1 & -> & I1 & C1).
  exists r, m1. split; [reflexivity|]. split; [congruence|].
  exact (continues_trans [] [] _ _ _ C0 C1).
Qed.

(** ** Stepping through the cache *)

Lemma set_slot_same (var : slot) (p : Z) (s : slot -> Z) :
  set_slot var p s var = p.
Proof. unfold set_slot. destruct (slot_eq_dec var var); congruence. Qed.

Lemma set_slot_other (var k : slot) (p : Z) (s : slot -> Z) :
  var <> k -> set_slot var p s k = s k.
Proof. intros H. unfold set_slot. destruct (slot_eq_dec var k); congruence. Qed.

Lemma continues_with_slot (var : slot) (p : Z) (m : Machine) :
  continues [var] m (with_slot var p m).
Proof.
  repeat split; auto.
  - exists []. cbn. now rewrite app_nil_r.
  - intros k Hk. cbn. apply set_slot_other. intros ->. apply Hk. now left.
Qed.

Lemma LOAD_ENTRYPOINT_cached (name : string) (var : slot) (m : Machine) :
  slots m var <> 0 -> LOAD_ENTRYPOINT name var m = Done tt m.
Proof.
  intros H. apply Z.eqb_neq in H.
  unfold LOAD_ENTRYPOINT. cbn -[resolve]. now rewrite H.
Qed.

Lemma LOAD_ENTRYPOINT_first
    (name : string) (var : slot) (m : Machine) (p : Z) (m1 : Machine) :
  slots m var = 0 ->
  resolve name m = Done p m1 ->
  LOAD_ENTRYPOINT name var m =
    if NDEBUG || negb (p =? 0) then Done tt (with_slot var p m1)
    else Stopped AssertionFailed (with_slot var p m1).
Proof.
  intros H R. unfold LOAD_ENTRYPOINT. cbn -[resolve].
  rewrite H. cbn -[resolve]. rewrite R. cbn.
  rewrite set_slot_same. unfold assert.
  destruct NDEBUG; cbn; [reflexivity|].
  destruct (p =? 0); reflexivity.
Qed.

Lemma entrypoint_cached
    (name : string) (var : slot) (args : list value) (m : Machine) :
  slots m var <> 0 ->
  entrypoint name var args m =
    Done (os (trace m) (Indirect (slots m var) args))
         (log (Indirect (slots m var) args) m).
Proof.
  intros H. unfold entrypoint. cbn -[LOAD_ENTRYPOINT].
  rewrite (LOAD_ENTRYPOINT_cached name var m H). cbn.
  unfold call_through. apply Z.eqb_neq in H. now rewrite H.
Qed.

Lemma entrypoint_first
    (name : string) (var : slot) (args : list value)
    (m : Machine) (p : Z) (m1 : Machine) :
  slots m var = 0 ->
  resolve name m = Done p m1 ->
  entrypoint name var args m =
    if p =? 0
    then Stopped (if NDEBUG then NullCall else AssertionFailed)
                 (with_slot var p m1)
    else Done (os (trace m1) (Indirect p args))
              (log (Indirect p args) (with_slot var p m1)).
Proof.
  intros H R. unfold entrypoint. cbn -[LOAD_ENTRYPOINT].
  rewrite (LOAD_ENTRYPOINT_first name var m p m1 H R).
  destruct (p =? 0) eqn:P; destruct NDEBUG; cbn;
    rewrite ?set_slot_same; unfold call_through; rewrite ?P; reflexivity.
Qed.

(** Whatever happens, a wrapper touches no slot but its own, and its own
    only while it is empty. *)
Lemma entrypoint_continues
    (name : string) (var : slot) (args : list value) (m : Machine) :
  continues [var] m (machine_of (entrypoint name var args m))
  /\ (slots m var <> 0 ->
      slots (machine_of (entrypoint name var args m)) var = slots m var).
Proof.
  destruct (Z.eq_dec (slots m var) 0) as [H|H].
  - destruct (resolve_returns name m) as (p & m1 & R & _ & C).
    rewrite (entrypoint_first name var args m p m1 H R).
    split; [|contradiction].
    destruct (p =? 0); cbn [machine_of].
    + exact (continues_trans [] [var] _ _ _ C (continues_with_slot var p m1)).
    + apply (continues_trans [] [var] _ _ _ C).
      apply (continues_trans [var] [] _ _ _ (continues_with_slot var p m1)).
      apply continues_log.
  - rewrite (entrypoint_cached name var args m H). cbn [machine_of].
    split; [|reflexivity].
    destruct (continues_log (Indirect (slots m var) args) m) as (T & S0 & N).
    repeat split; auto.
Qed.

Lemma createForWindow_slots (hWnd ppfd : Z) (m : Machine) :
  slots (machine_of (createForWindow hWnd ppfd m)) = slots m.
Proof.
  unfold createForWindow, new_OpenGLContext. cbn.
  destruct (wrap (os (trace m) (GetDC hWnd)) =? 0); [reflexivity|]. cbn.
  match goal with |- context [if ?b then _ else _] => destruct b end;
    reflexivity.
Qed.

Lemma exec_keeps_filled_slot (var : slot) (i : invocation) (m : Machine) :
  slots m var <> 0 ->
  slots (machine_of (exec i m)) var = slots m var.
Proof.
  intros H. destruct i as [name k args|this name|this hdc|hWnd ppfd].
  - cbn -[entrypoint].
    pose proof (entrypoint_continues name k args m) as [(_ & S0 & _) K].
    destruct (entrypoint name k args m) as [r m1|f m1];
      cbn [machine_of] in *;
      (destruct (slot_eq_dec k var) as [->|D]; [now apply K|]);
      apply S0; intros [?|[]]; contradiction.
  - cbn -[resolve]. unfold wglGetProcAddress.
    destruct (resolve_returns name m) as (p & m1 & -> & _ & _ & S0 & _).
    cbn [machine_of]. apply S0. intros [].
  - reflexivity.
  - cbn -[createForWindow].
    pose proof (createForWindow_slots hWnd ppfd m) as S0.
    destruct (createForWindow hWnd ppfd m); cbn [machine_of] in *;
      now rewrite S0.
Qed.

Lemma run_keeps_filled_slot (var : slot) (prog : list invocation) :
  forall m, slots m var <> 0 ->
    slots (machine_of (run prog m)) var = slots m var.
Proof.
  induction prog as [|i rest IH]; intros m H; [reflexivity|].
  cbn -[exec].
  pose proof (exec_keeps_filled_slot var i m H) as K.
  destruct (exec i m) as [[] m1|f m1]; cbn [machine_of] in *.
  - rewrite <- K. apply IH. now rewrite K.
  - exact K.
Qed.

(** ** One slot per entry point *)

Lemma distinct_NoDup (l : list string) : distinct l = true -> NoDup l.
Proof.
  induction l as [|x rest IH]; intros H; constructor;
    cbn in H; apply andb_true_iff in H; destruct H as [N D].
  - intros I. apply negb_true_iff in N.
    assert (E : existsb (String.eqb x) rest = true)
      by (apply existsb_exists; exists x; split; [assumption | apply String.eqb_refl]).
    congruence.
  - now apply IH.
Qed.

(** No two of the eighty wrappers share a slot, and none asks for the
    symbol of another. *)
Lemma all_slots_NoDup (this : nat) :
  NoDup (all_slots this)
  /\ NoDup (map fst (wgl_entry_points ++ gl_entry_points)).
Proof.
  split; [|apply distinct_NoDup; vm_compute; reflexivity].
  unfold all_slots. apply NoDup_app.
  - replace (map (method_slot this) wgl_entry_points)
      with (map (Member this) (map snd wgl_entry_points))
      by (rewrite map_map; reflexivity).
    apply Injective_map_NoDup.
    + intros x y E. now injection E.
    + apply distinct_NoDup. vm_compute. reflexivity.
  - replace (map function_slot gl_entry_points)
      with (map Static (map snd gl_entry_points))
      by (rewrite map_map; reflexivity).
    apply Injective_map_NoDup.
    + intros x y E. now injection E.
    + apply distinct_NoDup. vm_compute. reflexivity.
  - intros a I1 I2.
    apply in_map_iff in I1. destruct I1 as (r1 & <- & _).
    apply in_map_iff in I2. destruct I2 as (r2 & E & _).
    discriminate E.
Qed.

(** ** The per-symbol cache *)

(** C2.  The slot of a wrapper goes from empty to the resolved address in the
    first invocation that returns; a wrapper with another slot leaves it as
    it is; and once it is filled no run of operations of the module changes
    it: the wrapper itself finds it filled and only calls through it,
    without asking the loader again.  Hence two invocations in sequence call
    through one and the same address. *)
Theorem cache_slot_written_once (name : string) (var : slot) :
  (forall args m r m',
      slots m var = 0 ->
      entrypoint name var args m = Done r m' ->
      exists p m1,
        resolve name m = Done p m1 /\ p <> 0 /\ slots m' var = p)
  /\ (forall name' var' args m,
      var' <> var ->
      slots (machine_of (entrypoint name' var' args m)) var = slots m var)
  /\ (forall prog m,
      slots m var <> 0 ->
      slots (machine_of (run prog m)) var = slots m var)
  /\ (forall args m,
      slots m var <> 0 ->
      entrypoint name var args m
        = Done (os (trace m) (Indirect (slots m var) args))
               (log (Indirect (slots m var) args) m))
  /\ (forall args1 args2 m r1 m1 r2 m2,
      entrypoint name var args1 m = Done r1 m1 ->
      entrypoint name var args2 m1 = Done r2 m2 ->
      exists a tr,
        a <> 0 /\ slots m1 var = a /\ slots m2 var = a
        /\ trace m1 = tr ++ [Indirect a args1]
        /\ trace m2 = trace m1 ++ [Indirect a args2]).
Proof.
  assert (First : forall args m r m',
      entrypoint name var args m = Done r m' ->
      exists tr, slots m' var <> 0
        /\ trace m' = tr ++ [Indirect (slots m' var) args]
        /\ (slots m var = 0 ->
            exists p m1,
              resolve name m = Done p m1 /\ p <> 0 /\ slots m' var = p)).
  { intros args m r m' E.
    destruct (Z.eq_dec (slots m var) 0) as [H|H].
    - destruct (resolve_returns name m) as (p & m1 & R & _).
      rewrite (entrypoint_first name var args m p m1 H R) in E.
      destruct (p =? 0) eqn:P; [discriminate|].
      apply Z.eqb_neq in P. injection E as _ <-.
      unfold log, with_slot; cbn. rewrite set_slot_same.
      exists (trace m1). repeat split; auto. intros _. now exists p, m1.
    - rewrite (entrypoint_cached name var args m H) in E.
      injection E as _ <-. unfold log; cbn.
      exists (trace m). repeat split; auto. contradiction. }
  split; [|split; [|split; [|split]]].
  - intros args m r m' H E.
    destruct (First args m r m' E) as (_ & _ & _ & K). now apply K.
  - intros name' var' args m D.
    destruct (entrypoint_continues name' var' args m) as ((_ & S0 & _) & _).
    apply S0. intros [?|[]]. contradiction.
  - intros prog m H. now apply run_keeps_filled_slot.
  - intros args m H. now apply entrypoint_cached.
  - intros args1 args2 m r1 m1 r2 m2 E1 E2.
    destruct (First args1 m r1 m1 E1) as (tr & N1 & T1 & _).
    rewrite (entrypoint_cached name var args2 m1 N1) in E2.
    injection E2 as _ <-. unfold log; cbn.
    exists (slots m1 var), tr. repeat split; auto.
Qed.

Lemma entrypoint_forwards (name : string) (var : slot) (args : list value) :
  forwards (entrypoint name var args) name var args.
Proof.
  intros m. destruct (Z.eq_dec (slots m var) 0) as [H|H].
  - destruct (resolve_returns name m) as (p & m1 & R & _).
    rewrite (entrypoint_first name var args m p m1 H R).
    destruct (p =? 0) eqn:P.
    + apply Z.eqb_eq in P. subst p. split.
      * split; [assumption | now exists m1].
      * intros [N|(q & m2 & R2 & N)]; [contradiction|].
        rewrite R in R2. injection R2 as <- _. contradiction.
    + apply Z.eqb_neq in P. split.
      * exists (trace m1). unfold log, with_slot; cbn.
        rewrite set_slot_same.
        split; [exact P|]. split; [reflexivity|]. split; [reflexivity|].
        split; [intros N; contradiction|]. intros _. now exists m1.
      * intros _. eauto.
  - rewrite (entrypoint_cached name var args m H). split.
    + exists (trace m). unfold log; cbn.
      split; [exact H|]. split; [reflexivity|]. split; [reflexivity|].
      split; [auto|]. intros N. contradiction.
    + intros _. eauto.
Qed.

Lemma entrypoint_passes_on (name : string) (var : slot) (args : list value) :
  passes_on (_ <- entrypoint name var args ;; ret tt) name var args.
Proof.
  intros m. pose proof (entrypoint_forwards name var args m) as [F R].
  cbn -[entrypoint].
  destruct (entrypoint name var args m) as [r m'|f m']; cbn; split.
  - destruct F as (pre & N & T & _ & K1 & K2). exists pre.
    split; [exact N|]. split; [exact T|]. split; [reflexivity|].
    split; assumption.
  - intros _. eauto.
  - exact F.
  - intros H. destruct (R H) as (r & m'' & E). discriminate.
Qed.

(** C8.  Every wrapper of OpenGL.cpp, on every invocation: when it returns,
    its last platform call is the call through the address in its own slot
    with its own parameters, all of them, in the order of its parameter
    list, and it returns the answer to that call (nothing, for a [void]
    function).  The address is the one cached, or on a first invocation the
    one the loader has just answered for the wrapper's own symbol.  A
    wrapper fails to return only when its symbol resolved to null. *)
Theorem every_wrapper_forwards_its_arguments :
  (forall this hglrcSource hglrcDest mask,
      forwards (wglCopyContext this hglrcSource hglrcDest mask)
        "wglCopyContext" (Member this "m_pfnWglCopyContext")
        [VPtr hglrcSource; VPtr hglrcDest; VInt mask])
  /\
  (forall this hdc,
      forwards (wglCreateContext this hdc)
        "wglCreateContext" (Member this "m_pfnWglCreateContext")
        [VPtr hdc])
  /\
  (forall this hdc iLayerPlane,
      forwards (wglCreateLayerContext this hdc iLayerPlane)
        "wglCreateLayerContext" (Member this "m_pfnWglCreateLayerContext")
        [VPtr hdc; VInt iLayerPlane])
  /\
  (forall this hglrc,
      forwards (wglDeleteContext this hglrc)
        "wglDeleteContext" (Member this "m_pfnWglDeleteContext")
        [VPtr hglrc])
  /\
  (forall this hdc iPixelFormat iLayerPlane nBytes plpd,
      forwards
        (wglDescribeLayerPlane this hdc iPixelFormat iLayerPlane nBytes plpd)
        "wglDescribeLayerPlane" (Member this "m_pfnWglDescribeLayerPlane")
        [VPtr hdc; VInt iPixelFormat; VInt iLayerPlane; VInt nBytes;
         VPtr plpd])
  /\
  (forall this,
      forwards (wglGetCurrentContext this)
        "wglGetCurrentContext" (Member this "m_pfnWglGetCurrentContext")
        [])
  /\
  (forall this,
      forwards (wglGetCurrentDC this)
        "wglGetCurrentDC" (Member this "m_pfnWglGetCurrentDC")
        [])
  /\
  (forall this hdc iLayerPlane iStart cEntries pcr,
      forwards
        (wglGetLayerPaletteEntries this hdc iLayerPlane iStart cEntries pcr)
        "wglGetLayerPaletteEntries" (Member this "m_pfnWglGetLayerPaletteEntries")
        [VPtr hdc; VInt iLayerPlane; VInt iStart; VInt cEntries; VPtr pcr])
  /\
  (forall this hdc hglrc,
      forwards (wglMakeCurrent this hdc hglrc)
        "wglMakeCurrent" (Member this "m_pfnWglMakeCurrent")
        [VPtr hdc; VPtr hglrc])
  /\
  (forall this hdc iLayerPlane bRealize,
      forwards (wglRealizeLayerPalette this hdc iLayerPlane bRealize)
        "wglRealizeLayerPalette" (Member this "m_pfnWglRealizeLayerPalette")
        [VPtr hdc; VInt iLayerPlane; VInt bRealize])
  /\
  (forall this hdc iLayerPlane iStart cEntries pcr,
      forwards
        (wglSetLayerPaletteEntries this hdc iLayerPlane iStart cEntries pcr)
        "wglSetLayerPaletteEntries" (Member this "m_pfnWglSetLayerPaletteEntries")
        [VPtr hdc; VInt iLayerPlane; VInt iStart; VInt cEntries; VPtr pcr])
  /\
  (forall this hglrc1 hglrc2,
      forwards (wglShareLists this hglrc1 hglrc2)
        "wglShareLists" (Member this "m_pfnWglShareLists")
        [VPtr hglrc1; VPtr hglrc2])
  /\
  (forall this hdc fuPlanes,
      forwards (wglSwapLayerBuffers this hdc fuPlanes)
        "wglSwapLayerBuffers" (Member this "m_pfnWglSwapLayerBuffers")
        [VPtr hdc; VInt fuPlanes])
  /\
  (forall this count toSwap,
      forwards (wglSwapMultipleBuffers this count toSwap)
        "wglSwapMultipleBuffers" (Member this "m_pfnWglSwapMultipleBuffers")
        [VInt count; VPtr toSwap])
  /\
  (forall this hdc first count listBase,
      forwards (wglUseFontBitmapsA this hdc first count listBase)
        "wglUseFontBitmapsA" (Member this "m_pfnWglUseFontBitmapsA")
        [VPtr hdc; VInt first; VInt count; VInt listBase])
  /\
  (forall this hdc first count listBase,
      forwards (wglUseFontBitmapsW this hdc first count listBase)
        "wglUseFontBitmapsW" (Member this "m_pfnWglUseFontBitmapsW")
        [VPtr hdc; VInt first; VInt count; VInt listBase])
  /\
  (forall this hdc first count listBase deviation extrusion format lpgmf,
      forwards
        (wglUseFontOutlinesA this hdc first count listBase deviation extrusion format lpgmf)
        "wglUseFontOutlinesA" (Member this "m_pfnWglUseFontOutlinesA")
        [VPtr hdc; VInt first; VInt count; VInt listBase; VReal deviation;
         VReal extrusion; VInt format; VPtr lpgmf])
  /\
  (forall this hdc first count listBase deviation extrusion format lpgmf,
      forwards
        (wglUseFontOutlinesW this hdc first count listBase deviation extrusion format lpgmf)
        "wglUseFontOutlinesW" (Member this "m_pfnWglUseFontOutlinesW")
        [VPtr hdc; VInt first; VInt count; VInt listBase; VReal deviation;
         VReal extrusion; VInt format; VPtr lpgmf])
  /\
  (forall mode,
      passes_on (glCullFace mode)
        "glCullFace" (Static "pfnCullFace")
        [VInt mode])
  /\
  (forall mode,
      passes_on (glFrontFace mode)
        "glFrontFace" (Static "pfnFrontFace")
        [VInt mode])
  /\
  (forall target mode,
      passes_on (glHint target mode)
        "glHint" (Static "pfnHint")
        [VInt target; VInt mode])
  /\
  (forall width,
      passes_on (glLineWidth width)
        "glLineWidth" (Static "pfnLineWidth")
        [VReal width])
  /\
  (forall size,
      passes_on (glPointSize size)
        "glPointSize" (Static "pfnPointSize")
        [VReal size])
  /\
  (forall face mode,
      passes_on (glPolygonMode face mode)
        "glPolygonMode" (Static "pfnPolygonMode")
        [VInt face; VInt mode])
  /\
  (forall x y width height,
      passes_on (glScissor x y width height)
        "glScissor" (Static "pfnScissor")
        [VInt x; VInt y; VInt width; VInt height])
  /\
  (forall target pname param,
      passes_on (glTexParameterf target pname param)
        "glTexParameterf" (Static "pfnTexParameterf")
        [VInt target; VInt pname; VReal param])
  /\
  (forall target pname params,
      passes_on (glTexParameterfv target pname params)
        "glTexParameterfv" (Static "pfnTexParameterfv")
        [VInt target; VInt pname; VPtr params])
  /\
  (forall target pname param,
      passes_on (glTexParameteri target pname param)
        "glTexParameteri" (Static "pfnTexParameteri")
        [VInt target; VInt pname; VInt param])
  /\
  (forall target pname params,
      passes_on (glTexParameteriv target pname params)
        "glTexParameteriv" (Static "pfnTexParameteriv")
        [VInt target; VInt pname; VPtr params])
  /\
  (forall target level internalformat width border format type pixels,
      passes_on
        (glTexImage1D target level internalformat width border format type pixels)
        "glTexImage1D" (Static "pfnTexImage1D")
        [VInt target; VInt level; VInt internalformat; VInt width;
         VInt border; VInt format; VInt type; VPtr pixels])
  /\
  (forall target level internalformat width height border format type pixels,
      passes_on
        (glTexImage2D target level internalformat width height border format type pixels)
        "glTexImage2D" (Static "pfnTexImage2D")
        [VInt target; VInt level; VInt internalformat; VInt width;
         VInt height; VInt border; VInt format; VInt type; VPtr pixels])
  /\
  (forall buf,
      passes_on (glDrawBuffer buf)
        "glDrawBuffer" (Static "pfnDrawBuffer")
        [VInt buf])
  /\
  (forall mask,
      passes_on (glClear mask)
        "glClear" (Static "pfnClear")
        [VInt mask])
  /\
  (forall red green blue alpha,
      passes_on (glClearColor red green blue alpha)
        "glClearColor" (Static "pfnClearColor")
        [VReal red; VReal green; VReal blue; VReal alpha])
  /\
  (forall s,
      passes_on (glClearStencil s)
        "glClearStencil" (Static "pfnClearStencil")
        [VInt s])
  /\
  (forall depth,
      passes_on (glClearDepth depth)
        "glClearDepth" (Static "pfnClearDepth")
        [VReal depth])
  /\
  (forall mask,
      passes_on (glStencilMask mask)
        "glStencilMask" (Static "pfnStencilMask")
        [VInt mask])
  /\
  (forall red green blue alpha,
      passes_on (glColorMask red green blue alpha)
        "glColorMask" (Static "pfnColorMask")
        [VInt red; VInt green; VInt blue; VInt alpha])
  /\
  (forall flag,
      passes_on (glDepthMask flag)
        "glDepthMask" (Static "pfnDepthMask")
        [VInt flag])
  /\
  (forall cap,
      passes_on (glDisable cap)
        "glDisable" (Static "pfnDisable")
        [VInt cap])
  /\
  (forall cap,
      passes_on (glEnable cap)
        "glEnable" (Static "pfnEnable")
        [VInt cap])
  /\
  (passes_on glFinish
        "glFinish" (Static "pfnFinish")
        [])
  /\
  (passes_on glFlush
        "glFlush" (Static "pfnFlush")
        [])
  /\
  (forall sfactor dfactor,
      passes_on (glBlendFunc sfactor dfactor)
        "glBlendFunc" (Static "pfnBlendFunc")
        [VInt sfactor; VInt dfactor])
  /\
  (forall opcode,
      passes_on (glLogicOp opcode)
        "glLogicOp" (Static "pfnLogicOp")
        [VInt opcode])
  /\
  (forall func ref mask,
      passes_on (glStencilFunc func ref mask)
        "glStencilFunc" (Static "pfnStencilFunc")
        [VInt func; VInt ref; VInt mask])
  /\
  (forall fail zfail zpass,
      passes_on (glStencilOp fail zfail zpass)
        "glStencilOp" (Static "pfnStencilOp")
        [VInt fail; VInt zfail; VInt zpass])
  /\
  (forall func,
      passes_on (glDepthFunc func)
        "glDepthFunc" (Static "pfnDepthFunc")
        [VInt func])
  /\
  (forall pname param,
      passes_on (glPixelStoref pname param)
        "glPixelStoref" (Static "pfnPixelStoref")
        [VInt pname; VReal param])
  /\
  (forall pname param,
      passes_on (glPixelStorei pname param)
        "glPixelStorei" (Static "pfnPixelStorei")
        [VInt pname; VInt param])
  /\
  (forall src,
      passes_on (glReadBuffer src)
        "glReadBuffer" (Static "pfnReadBuffer")
        [VInt src])
  /\
  (forall x y width height format type pixels,
      passes_on (glReadPixels x y width height format type pixels)
        "glReadPixels" (Static "pfnReadPixels")
        [VInt x; VInt y; VInt width; VInt height; VInt format; VInt type;
         VPtr pixels])
  /\
  (forall pname data,
      passes_on (glGetBooleanv pname data)
        "glGetBooleanv" (Static "pfnGetBooleanv")
        [VInt pname; VPtr data])
  /\
  (forall pname data,
      passes_on (glGetDoublev pname data)
        "glGetDoublev" (Static "pfnGetDoublev")
        [VInt pname; VPtr data])
  /\
  (forwards glGetError
        "glGetError" (Static "pfnGetError")
        [])
  /\
  (forall pname data,
      passes_on (glGetFloatv pname data)
        "glGetFloatv" (Static "pfnGetFloatv")
        [VInt pname; VPtr data])
  /\
  (forall pname data,
      passes_on (glGetIntegerv pname data)
        "glGetIntegerv" (Static "pfnGetIntegerv")
        [VInt pname; VPtr data])
  /\
  (forall name,
      forwards (glGetString name)
        "glGetString" (Static "pfnGetString")
        [VInt name])
  /\
  (forall target level format type pixels,
      passes_on (glGetTexImage target level format type pixels)
        "glGetTexImage" (Static "pfnGetTexImage")
        [VInt target; VInt level; VInt format; VInt type; VPtr pixels])
  /\
  (forall target pname params,
      passes_on (glGetTexParameterfv target pname params)
        "glGetTexParameterfv" (Static "pfnGetTexParameterfv")
        [VInt target; VInt pname; VPtr params])
  /\
  (forall target pname params,
      passes_on (glGetTexParameteriv target pname params)
        "glGetTexParameteriv" (Static "pfnGetTexParameteriv")
        [VInt target; VInt pname; VPtr params])
  /\
  (forall target level pname params,
      passes_on (glGetTexLevelParameterfv target level pname params)
        "glGetTexLevelParameterfv" (Static "pfnGetTexLevelParameterfv")
        [VInt target; VInt level; VInt pname; VPtr params])
  /\
  (forall target level pname params,
      passes_on (glGetTexLevelParameteriv target level pname params)
        "glGetTexLevelParameteriv" (Static "pfnGetTexLevelParameteriv")
        [VInt target; VInt level; VInt pname; VPtr params])
  /\
  (forall cap,
      forwards (glIsEnabled cap)
        "glIsEnabled" (Static "pfnIsEnabled")
        [VInt cap])
  /\
  (forall n f,
      passes_on (glDepthRange n f)
        "glDepthRange" (Static "pfnDepthRange")
        [VReal n; VReal f])
  /\
  (forall x y width height,
      passes_on (glViewport x y width height)
        "glViewport" (Static "pfnViewport")
        [VInt x; VInt y; VInt width; VInt height])
  /\
  (forall mode first count,
      passes_on (glDrawArrays mode first count)
        "glDrawArrays" (Static "pfnDrawArrays")
        [VInt mode; VInt first; VInt count])
  /\
  (forall mode count type indices,
      passes_on (glDrawElements mode count type indices)
        "glDrawElements" (Static "pfnDrawElements")
        [VInt mode; VInt count; VInt type; VPtr indices])
  /\
  (forall pname params,
      passes_on (glGetPointerv pname params)
        "glGetPointerv" (Static "pfnGetPointerv")
        [VInt pname; VPtr params])
  /\
  (forall factor units,
      passes_on (glPolygonOffset factor units)
        "glPolygonOffset" (Static "pfnPolygonOffset")
        [VReal factor; VReal units])
  /\
  (forall target level internalformat x y width border,
      passes_on
        (glCopyTexImage1D target level internalformat x y width border)
        "glCopyTexImage1D" (Static "pfnCopyTexImage1D")
        [VInt target; VInt level; VInt internalformat; VInt x; VInt y;
         VInt width; VInt border])
  /\
  (forall target level internalformat x y width height border,
      passes_on
        (glCopyTexImage2D target level internalformat x y width height border)
        "glCopyTexImage2D" (Static "pfnCopyTexImage2D")
        [VInt target; VInt level; VInt internalformat; VInt x; VInt y;
         VInt width; VInt height; VInt border])
  /\
  (forall target level xoffset x y width,
      passes_on (glCopyTexSubImage1D target level xoffset x y width)
        "glCopyTexSubImage1D" (Static "pfnCopyTexSubImage1D")
        [VInt target; VInt level; VInt xoffset; VInt x; VInt y; VInt width])
  /\
  (forall target level xoffset yoffset x y width height,
      passes_on
        (glCopyTexSubImage2D target level xoffset yoffset x y width height)
        "glCopyTexSubImage2D" (Static "pfnCopyTexSubImage2D")
        [VInt target; VInt level; VInt xoffset; VInt yoffset; VInt x; VInt y;
         VInt width; VInt height])
  /\
  (forall target level xoffset width format type pixels,
      passes_on
        (glTexSubImage1D target level xoffset width format type pixels)
        "glTexSubImage1D" (Static "pfnTexSubImage1D")
        [VInt target; VInt level; VInt xoffset; VInt width; VInt format;
         VInt type; VPtr pixels])
  /\
  (forall target level xoffset yoffset width height format type pixels,
      passes_on
        (glTexSubImage2D target level xoffset yoffset width height format type pixels)
        "glTexSubImage2D" (Static "pfnTexSubImage2D")
        [VInt target; VInt level; VInt xoffset; VInt yoffset; VInt width;
         VInt height; VInt format; VInt type; VPtr pixels])
  /\
  (forall target texture,
      passes_on (glBindTexture target texture)
        "glBindTexture" (Static "pfnBindTexture")
        [VInt target; VInt texture])
  /\
  (forall n textures,
      passes_on (glDeleteTextures n textures)
        "glDeleteTextures" (Static "pfnDeleteTextures")
        [VInt n; VPtr textures])
  /\
  (forall n textures,
      passes_on (glGenTextures n textures)
        "glGenTextures" (Static "pfnGenTextures")
        [VInt n; VPtr textures])
  /\
  (forall texture,
      forwards (glIsTexture texture)
        "glIsTexture" (Static "pfnIsTexture")
        [VInt texture]).
Proof.
  repeat match goal with |- _ /\ _ => split end; intros;
    first [ exact (entrypoint_forwards _ _ _)
          | exact (entrypoint_passes_on _ _ _) ].
Qed.

(** ** The resolver without an extension query, and when both tiers fail *)

Lemma getProcAddress_no_query (this : Loader) (name : string) (m : Machine) :
  m_pfnWglGetProcAddress this = 0 -> getProcAddress this name m = Done 0 m.
Proof. intros H. unfold getProcAddress. now rewrite H. Qed.

(** What the constructor leaves behind when the library or the symbol is
    missing. *)
Lemma Loader_instance_without_query (m : Machine) :
  theInstance m = None ->
  let load := LoadLibraryA "opengl32.dll" in
  let h := wrap (os (trace m) load) in
  let find := GetProcAddress h "wglGetProcAddress" in
  h = 0 \/ wrap (os (trace m ++ [load]) find) = 0 ->
  Loader_instance m =
    Done (mkLoader h 0)
         (mkMachine (trace m ++ (if h =? 0 then [load] else [load; find]))
                    (Some (mkLoader h 0)) (slots m) (next_this m)).
Proof.
  intros E load h find H.
  unfold Loader_instance. cbn. rewrite E. cbn. fold load h.
  destruct (h =? 0) eqn:Hz; cbn.
  - apply Z.eqb_eq in Hz. now rewrite Hz.
  - apply Z.eqb_neq in Hz. destruct H as [H|H]; [contradiction|].
    fold find. rewrite H. unfold log; cbn. now rewrite <- app_assoc.
Qed.

(** C9.  A loader that holds no extension-query pointer answers null for
    every name and makes no platform call at all, whatever its library
    handle is; and that is the loader the singleton becomes when
    opengl32.dll does not load or does not export the query function. *)
Theorem getProcAddress_without_query_is_null (name : string) (m : Machine) :
  (forall this,
      m_pfnWglGetProcAddress this = 0 ->
      getProcAddress this name m = Done 0 m)
  /\ (theInstance m = None ->
      let load := LoadLibraryA "opengl32.dll" in
      let h := wrap (os (trace m) load) in
      let find := GetProcAddress h "wglGetProcAddress" in
      h = 0 \/ wrap (os (trace m ++ [load]) find) = 0 ->
      exists m1,
        resolve name m = Done 0 m1
        /\ theInstance m1 = Some (mkLoader h 0)
        /\ trace m1 = trace m ++ (if h =? 0 then [load] else [load; find])
        /\ resolve name m1 = Done 0 m1).
Proof.
  split.
  - intros this H. now apply getProcAddress_no_query.
  - intros E load h find H.
    pose proof (Loader_instance_without_query m E H) as I.
    fold load h find in I.
    exists (mkMachine (trace m ++ (if h =? 0 then [load] else [load; find]))
                      (Some (mkLoader h 0)) (slots m) (next_this m)).
    split; [|split; [|split]].
    + unfold resolve. cbn -[Loader_instance getProcAddress]. rewrite I.
      now apply getProcAddress_no_query.
    + reflexivity.
    + reflexivity.
    + unfold resolve. cbn -[Loader_instance getProcAddress].
      rewrite (Loader_instance_cached (mkLoader h 0)) by reflexivity.
      now apply getProcAddress_no_query.
Qed.

(** C3 (as the code has it).  When opengl32.dll does not load, or does not
    export the query function, the resolver neither stops nor reports: it
    answers null, for every name, and so does
    [OpenGLContext::wglGetProcAddress].  What stops is a wrapper with an
    empty slot: on its assertion in a debug build, on the call through the
    null pointer in an NDEBUG build. *)
Theorem missing_driver_resolves_to_null (name : string) (m : Machine) :
  theInstance m = None ->
  let load := LoadLibraryA "opengl32.dll" in
  let h := wrap (os (trace m) load) in
  let find := GetProcAddress h "wglGetProcAddress" in
  h = 0 \/ wrap (os (trace m ++ [load]) find) = 0 ->
  (exists m1,
      resolve name m = Done 0 m1
      /\ trace m1 = trace m ++ (if h =? 0 then [load] else [load; find]))
  /\ (forall this, exists m1, wglGetProcAddress this name m = Done 0 m1)
  /\ (forall var args,
      slots m var = 0 ->
      exists m',
        entrypoint name var args m
          = Stopped (if NDEBUG then NullCall else AssertionFailed) m').
Proof.
  intros E load h find H.
  pose proof (Loader_instance_without_query m E H) as I.
  fold load h find in I.
  assert (R : exists m1,
             resolve name m = Done 0 m1
             /\ trace m1 = trace m ++ (if h =? 0 then [load] else [load; find])).
  { exists (mkMachine (trace m ++ (if h =? 0 then [load] else [load; find]))
                      (Some (mkLoader h 0)) (slots m) (next_this m)).
    split; [|reflexivity].
    unfold resolve. cbn -[Loader_instance getProcAddress]. rewrite I.
    now apply getProcAddress_no_query. }
  destruct R as (m1 & R & T).
  split; [now exists m1|]. split.
  - intros this. now exists m1.
  - intros var args Hs.
    rewrite (entrypoint_first name var args m 0 m1 Hs R). cbn. eauto.
Qed.


(** ** The context *)

(** C5.  [OpenGLContext::SwapBuffers] is one call of the statically imported
    [::SwapBuffers], whose answer it returns; it neither reads nor writes a
    cache slot and leaves the loader as it was.  Every wrapper built on
    [LOAD_ENTRYPOINT] instead calls through its slot, after going to the
    loader when the slot is empty, and [wglGetProcAddress] goes to the
    loader each time. *)
Theorem SwapBuffers_is_a_direct_call (this : nat) (hdc : Z) (m : Machine) :
  (exists m',
      SwapBuffers this hdc m = Done (os (trace m) (GdiSwapBuffers hdc)) m'
      /\ trace m' = trace m ++ [GdiSwapBuffers hdc]
      /\ theInstance m' = theInstance m
      /\ slots m' = slots m)
  /\ (forall name var args,
      let after := machine_of (entrypoint name var args m) in
      (slots m var <> 0
       /\ trace after = trace m ++ [Indirect (slots m var) args])
      \/ (slots m var = 0
          /\ theInstance after <> None
          /\ exists p m1,
               resolve name m = Done p m1 /\ slots after var = p))
  /\ (forall name,
      theInstance (machine_of (wglGetProcAddress this name m))
        <> None).
Proof.
  split; [|split].
  - exists (log (GdiSwapBuffers hdc) m). repeat split.
  - intros name var args after. subst after.
    destruct (Z.eq_dec (slots m var) 0) as [H|H].
    + right. split; [assumption|].
      destruct (resolve_returns name m) as (p & m1 & R & I & _).
      rewrite (entrypoint_first name var args m p m1 H R).
      destruct (p =? 0); unfold log, with_slot; cbn; rewrite set_slot_same;
        (split; [assumption | now exists p, m1]).
    + left. split; [assumption|].
      now rewrite (entrypoint_cached name var args m H).
  - intros name. unfold wglGetProcAddress.
    destruct (resolve_returns name m) as (p & m1 & -> & I & _). exact I.
Qed.

Lemma createForWindow_unfold (hWnd ppfd : Z) (m : Machine) :
  let dc := GetDC hWnd in
  let hDC := wrap (os (trace m) dc) in
  let choose := ChoosePixelFormat hDC ppfd in
  let pf := os (trace m ++ [dc]) choose in
  let set := SetPixelFormat hDC pf ppfd in
  let made cs :=
    mkMachine (trace m ++ cs) (theInstance m) (slots m) (S (next_this m)) in
  createForWindow hWnd ppfd m =
    if hDC =? 0 then Done None (made [dc])
    else if os (trace m ++ [dc; choose]) set =? 0
         then Done None (made [dc; choose; set])
         else Done (Some (next_this m)) (made [dc; choose; set]).
Proof.
  unfold createForWindow, new_OpenGLContext. cbn.
  destruct (wrap (os (trace m) (GetDC hWnd)) =? 0); [reflexivity|].
  cbn. unfold log; cbn. rewrite <- !app_assoc. cbn.
  match goal with |- context [if ?b then _ else _] => destruct b end;
    reflexivity.
Qed.

(** C6.  On a platform that numbers pixel formats from one: when the
    window has a device context and format negotiation finds no format
    ([ChoosePixelFormat] answers 0), or setting the chosen format fails,
    [createForWindow] returns the empty pointer.  Its platform calls are
    [GetDC], [ChoosePixelFormat] and [SetPixelFormat]: it makes no call
    through a function pointer, so it creates no context, and the loader
    and the cache slots stay as they were. *)
Theorem createForWindow_fails_without_a_format
    (hWnd ppfd : Z) (m : Machine) :
  one_based_formats ->
  let dc := GetDC hWnd in
  let hDC := wrap (os (trace m) dc) in
  let choose := ChoosePixelFormat hDC ppfd in
  let pf := os (trace m ++ [dc]) choose in
  let set := SetPixelFormat hDC pf ppfd in
  hDC <> 0 ->
  pf = 0 \/ os (trace m ++ [dc; choose]) set = 0 ->
  exists m',
    createForWindow hWnd ppfd m = Done None m'
    /\ trace m' = trace m ++ [dc; choose; set]
    /\ theInstance m' = theInstance m
    /\ slots m' = slots m.
Proof.
  intros Contract dc hDC choose pf set H F.
  assert (S0 : os (trace m ++ [dc; choose]) set = 0).
  { destruct F as [F|F]; [|exact F].
    subst set. rewrite F. apply Contract. }
  pose proof (createForWindow_unfold hWnd ppfd m) as E. cbn zeta in E.
  fold dc hDC choose pf set in E.
  apply Z.eqb_neq in H. rewrite H, S0 in E. cbn in E.
  eexists. split; [exact E|]. repeat split.
Qed.

(** C7.  For a window that yields no device context, [createForWindow]
    returns the empty pointer after the one call of [GetDC]: the loader is
    not constructed or asked, and no cache slot changes. *)
Theorem createForWindow_without_device_context
    (hWnd ppfd : Z) (m : Machine) :
  wrap (os (trace m) (GetDC hWnd)) = 0 ->
  exists m',
    createForWindow hWnd ppfd m = Done None m'
    /\ trace m' = trace m ++ [GetDC hWnd]
    /\ theInstance m' = theInstance m
    /\ slots m' = slots m.
Proof.
  intros H.
  pose proof (createForWindow_unfold hWnd ppfd m) as E. cbn zeta in E.
  rewrite H in E. cbn in E.
  eexists. split; [exact E|]. repeat split.
Qed.

(** ** The uncached query *)

Lemma occurrences_app (c : Call) (l1 l2 : list Call) :
  occurrences c (l1 ++ l2) = (occurrences c l1 + occurrences c l2)%nat.
Proof. apply count_occ_app. Qed.

Lemma occurrences_self (c : Call) : occurrences c [c] = 1%nat.
Proof.
  unfold occurrences. cbn [count_occ].
  destruct (Call_eq_dec c c); congruence.
Qed.

Lemma occurrences_other (c c' : Call) : c <> c' -> occurrences c [c'] = 0%nat.
Proof.
  intros H. unfold occurrences. cbn [count_occ].
  destruct (Call_eq_dec c' c); congruence.
Qed.

Lemma resolve_asks_once (l : Loader) (name : string) (m : Machine) :
  theInstance m = Some l ->
  m_pfnWglGetProcAddress l <> 0 ->
  let query := Indirect (m_pfnWglGetProcAddress l) [VStr name] in
  exists r m1,
    resolve name m = Done r m1
    /\ theInstance m1 = Some l
    /\ slots m1 = slots m
    /\ occurrences query (trace m1) = S (occurrences query (trace m)).
Proof.
  intros I Hq query.
  unfold resolve. cbn -[Loader_instance getProcAddress].
  rewrite (Loader_instance_cached l m I).
  rewrite (getProcAddress_unfold l name m Hq). cbn zeta. fold query.
  match goal with |- context [if ?b then _ else _] => destruct b end;
    do 2 eexists; (split; [reflexivity|]);
    unfold log; cbn [trace theInstance slots];
    repeat split; auto;
    rewrite !occurrences_app, occurrences_self,
      ?(occurrences_other query (GetProcAddress (m_hLibGL l) name))
      by discriminate;
    lia.
Qed.

Lemma query_n_counts (this : nat) (l : Loader) (name : string) (n : nat) :
  m_pfnWglGetProcAddress l <> 0 ->
  forall m, theInstance m = Some l ->
  let query := Indirect (m_pfnWglGetProcAddress l) [VStr name] in
  exists rs m',
    query_n n this name m = Done rs m'
    /\ theInstance m' = Some l
    /\ slots m' = slots m
    /\ length rs = n
    /\ occurrences query (trace m') = (occurrences query (trace m) + n)%nat.
Proof.
  intros Hq. induction n as [|k IH]; intros m I query.
  - exists [], m. cbn. repeat split; auto.
  - destruct (resolve_asks_once l name m I Hq) as (r & m1 & R & I1 & S1 & O1).
    destruct (IH m1 I1) as (rs & m' & Q & I' & S' & Len & O').
    exists (r :: rs), m'.
    cbn -[resolve wglGetProcAddress]. unfold wglGetProcAddress.
    rewrite R, Q.
    split; [reflexivity|]. split; [assumption|]. split; [congruence|].
    split; [cbn [length]; now rewrite Len|].
    subst query. unfold occurrences in *. cbn zeta in O', O1.
    rewrite O', O1. lia.
Qed.

(** C10.  [OpenGLContext::wglGetProcAddress] is the loader's
    [getProcAddress] on the singleton, with the name it was given, and its
    result; it has no slot, so the cache slots are as before.  With the
    extension-query pointer in hand, [n] invocations for a name therefore
    ask the extension query for that name [n] times. *)
Theorem wglGetProcAddress_asks_every_time (this : nat) (name : string) :
  (forall m,
      exists l m0,
        Loader_instance m = Done l m0
        /\ wglGetProcAddress this name m = getProcAddress l name m0)
  /\ (forall m var,
      slots (machine_of (wglGetProcAddress this name m)) var = slots m var)
  /\ (forall n l m,
      theInstance m = Some l ->
      m_pfnWglGetProcAddress l <> 0 ->
      let query := Indirect (m_pfnWglGetProcAddress l) [VStr name] in
      exists rs m',
        query_n n this name m = Done rs m'
        /\ length rs = n
        /\ occurrences query (trace m')
           = (occurrences query (trace m) + n)%nat).
Proof.
  split; [|split].
  - intros m.
    destruct (Loader_instance_returns m) as (l & m0 & I & _).
    exists l, m0. split; [assumption|].
    unfold wglGetProcAddress, resolve. cbn -[Loader_instance getProcAddress].
    now rewrite I.
  - intros m var. unfold wglGetProcAddress.
    destruct (resolve_returns name m) as (p & m1 & -> & _ & _ & S0 & _).
    cbn [machine_of]. apply S0. intros [].
  - intros n l m I Hq query.
    destruct (query_n_counts this l name n Hq m I)
      as (rs & m' & Q & _ & _ & Len & O).
    exists rs, m'. auto.
Qed.

(** * Further properties *)

(** ** What the loader's calls look like *)

Lemma loads_app (l1 l2 : list Call) :
  loads (l1 ++ l2) = (loads l1 + loads l2)%nat.
Proof. unfold loads. now rewrite filter_app, length_app. Qed.

(** A machine that differs from [m] by the calls [cs] and, possibly, by the
    singleton. *)
Lemma getProcAddress_calls (l : Loader) (name : string) (m : Machine) :
  exists p cs,
    getProcAddress l name m
      = Done p (mkMachine (trace m ++ cs) (theInstance m) (slots m) (next_this m))
    /\ loads cs = 0%nat
    /\ forall h n,
         In (GetProcAddress h n) cs ->
         h = m_hLibGL l /\ m_pfnWglGetProcAddress l <> 0.
Proof.
  unfold getProcAddress.
  destruct (m_pfnWglGetProcAddress l =? 0) eqn:Q; cbn.
  - exists 0, []. rewrite app_nil_r. destruct m; cbn.
    repeat split; auto; contradiction.
  - apply Z.eqb_neq in Q.
    match goal with |- context [if ?b then _ else _] => destruct b end; cbn.
    + do 2 eexists. unfold log; cbn. rewrite <- app_assoc.
      split; [reflexivity|]. split; [reflexivity|].
      intros h n [E|[E|[]]]; [discriminate|]. injection E as <- _. auto.
    + do 2 eexists. unfold log; cbn.
      split; [reflexivity|]. split; [reflexivity|].
      intros h n [E|[]]. discriminate.
Qed.

Lemma Loader_ctor_calls (m : Machine) :
  exists l cs,
    Loader_ctor m
      = Done l (mkMachine (trace m ++ cs) (theInstance m) (slots m) (next_this m))
    /\ loads cs = 1%nat
    /\ (m_pfnWglGetProcAddress l <> 0 -> m_hLibGL l <> 0)
    /\ forall h n,
         In (GetProcAddress h n) cs -> h = m_hLibGL l /\ h <> 0.
Proof.
  unfold Loader_ctor. cbn.
  destruct (wrap (os (trace m) (LoadLibraryA "opengl32.dll")) =? 0) eqn:H; cbn.
  - exists (mkLoader (wrap (os (trace m) (LoadLibraryA "opengl32.dll"))) 0),
      [LoadLibraryA "opengl32.dll"].
    split; [reflexivity|]. split; [reflexivity|]. split.
    + cbn. intros N. now contradiction N.
    + intros h n [E|[]]. discriminate.
  - apply Z.eqb_neq in H.
    eexists. exists [LoadLibraryA "opengl32.dll";
       GetProcAddress (wrap (os (trace m) (LoadLibraryA "opengl32.dll")))
         "wglGetProcAddress"].
    unfold log; cbn. rewrite <- app_assoc.
    split; [reflexivity|]. split; [reflexivity|]. split.
    + intros _. exact H.
    + intros h n [E|[E|[]]]; [discriminate|].
      injection E as <- _. split; [reflexivity | exact H].
Qed.

Lemma resolve_calls (name : string) (m : Machine) :
  exists p l cs,
    resolve name m
      = Done p (mkMachine (trace m ++ cs) (Some l) (slots m) (next_this m))
    /\ loads cs = unborn m
    /\ (forall h n,
          In (GetProcAddress h n) cs ->
          h = m_hLibGL l /\ (theInstance m = None -> h <> 0))
    /\ ((theInstance m = None
         /\ (m_pfnWglGetProcAddress l <> 0 -> m_hLibGL l <> 0))
        \/ (theInstance m = Some l
            /\ forall h n,
                 In (GetProcAddress h n) cs -> m_pfnWglGetProcAddress l <> 0)).
Proof.
  unfold resolve, unborn. cbn -[Loader_instance getProcAddress].
  destruct (theInstance m) as [l|] eqn:I.
  - rewrite (Loader_instance_cached l m I).
    destruct (getProcAddress_calls l name m) as (p & cs & E & L & G).
    rewrite E, I. exists p, l, cs.
    split; [reflexivity|]. split; [assumption|]. split.
    + intros h n Hin. split; [now apply (G h n) | discriminate].
    + right. split; [reflexivity|]. intros h n Hin. now apply (G h n).
  - unfold Loader_instance. cbn -[Loader_ctor getProcAddress]. rewrite I.
    destruct (Loader_ctor_calls m) as (l & cs & -> & L & V & G).
    cbn -[getProcAddress].
    destruct (getProcAddress_calls l name
                (mkMachine (trace m ++ cs) (Some l) (slots m) (next_this m)))
      as (p & cs' & E & L' & G').
    rewrite E. cbn. exists p, l, (cs ++ cs').
    rewrite <- app_assoc. split; [reflexivity|]. split.
    + rewrite loads_app, L, L'. reflexivity.
    + split.
      * intros h n Hin. apply in_app_or in Hin. destruct Hin as [Hin|Hin].
        -- destruct (G h n Hin). auto.
        -- destruct (G' h n Hin) as [-> Q]. auto.
      * left. auto.
Qed.

(** What an operation of the module does to the trace and the singleton:
    the calls it adds load a library exactly when the singleton was still
    to be constructed and is no longer, and its library lookups go to the
    handle of the singleton. *)
Lemma exec_calls (i : invocation) (m : Machine) :
  let m' := machine_of (exec i m) in
  exists cs,
    trace m' = trace m ++ cs
    /\ (loads cs + unborn m' = unborn m)%nat
    /\ (theInstance m' = theInstance m
        /\ (forall h n,
              In (GetProcAddress h n) cs ->
              exists l, theInstance m = Some l /\ h = m_hLibGL l
                        /\ m_pfnWglGetProcAddress l <> 0)
        \/ theInstance m = None
           /\ exists l, theInstance m' = Some l
                /\ (m_pfnWglGetProcAddress l <> 0 -> m_hLibGL l <> 0)
                /\ forall h n,
                     In (GetProcAddress h n) cs -> h = m_hLibGL l /\ h <> 0).
Proof.
  assert (R : forall name,
    let m1 := machine_of (resolve name m) in
    exists cs,
    trace m1 = trace m ++ cs
    /\ (loads cs + unborn m1 = unborn m)%nat
    /\ (theInstance m1 = theInstance m
        /\ (forall h n,
              In (GetProcAddress h n) cs ->
              exists l, theInstance m = Some l /\ h = m_hLibGL l
                        /\ m_pfnWglGetProcAddress l <> 0)
        \/ theInstance m = None
           /\ exists l, theInstance m1 = Some l
                /\ (m_pfnWglGetProcAddress l <> 0 -> m_hLibGL l <> 0)
                /\ forall h n,
                     In (GetProcAddress h n) cs -> h = m_hLibGL l /\ h <> 0)).
  { intros name.
    destruct (resolve_calls name m) as (p & l & cs & E & L & G & K).
    rewrite E. cbn. exists cs. split; [reflexivity|].
    split; [lia|].
    destruct K as [(I & V)|(I & Q)].
    - right. split; [assumption|]. exists l. repeat split; auto.
      + now apply (G h n).
      + now apply (G h n).
    - left. split; [now rewrite I|]. intros h n Hin. exists l.
      repeat split; auto.
      + now apply (G h n).
      + now apply (Q h n). }
  destruct i as [name var args|this name|this hdc|hWnd ppfd]; cbn zeta.
  - (* a wrapper *)
    destruct (Z.eq_dec (slots m var) 0) as [H|H].
    + specialize (R name). cbn zeta in R.
      destruct R as (cs & T & L & K).
      destruct (resolve_returns name m) as (p & m1 & E & _).
      rewrite E in T, L, K. cbn [machine_of] in T, L, K.
      cbn -[entrypoint].
      rewrite (entrypoint_first name var args m p m1 H E).
      destruct (p =? 0); cbn [machine_of].
      * exists cs. auto.
      * exists (cs ++ [Indirect p args]).
        unfold log, with_slot; cbn. rewrite T, <- app_assoc.
        split; [reflexivity|].
        split; [rewrite loads_app; unfold unborn in *; cbn in *; lia|].
        destruct K as [(I & G)|(I & l & I1 & V & G)].
        -- left. split; [assumption|]. intros h n Hin.
           apply in_app_or in Hin. destruct Hin as [Hin|[Hin|[]]];
             [now apply (G h n) | discriminate].
        -- right. split; [assumption|]. exists l.
           split; [assumption|]. split; [assumption|].
           intros h n Hin.
           apply in_app_or in Hin. destruct Hin as [Hin|[Hin|[]]];
             [now apply (G h n) | discriminate].
    + cbn -[entrypoint]. rewrite (entrypoint_cached name var args m H).
      cbn. exists [Indirect (slots m var) args].
      split; [reflexivity|]. split; [reflexivity|]. left.
      split; [reflexivity|]. intros h n [Hin|[]]. discriminate.
  - (* wglGetProcAddress *)
    specialize (R name). cbn zeta in R. cbn -[resolve].
    unfold wglGetProcAddress.
    destruct (resolve name m) as [p m1|f m1]; exact R.
  - (* SwapBuffers *)
    cbn. exists [GdiSwapBuffers hdc].
    split; [reflexivity|]. split; [reflexivity|]. left.
    split; [reflexivity|]. intros h n [Hin|[]]. discriminate.
  - (* createForWindow *)
    cbn -[createForWindow].
    rewrite (createForWindow_unfold hWnd ppfd m). cbn zeta.
    destruct (wrap (os (trace m) (GetDC hWnd)) =? 0);
      [|match goal with |- context [if ?b then _ else _] => destruct b end];
      cbn; eexists; (split; [reflexivity|]); (split; [reflexivity|]); left;
      (split; [reflexivity|]); intros h n Hin; cbn in Hin;
      repeat (destruct Hin as [Hin|Hin]; [discriminate|]); contradiction.
Qed.

(** ** The singleton over a run *)

Lemma exec_sound (i : invocation) (m : Machine) :
  loader_sound m -> loader_sound (machine_of (exec i m)).
Proof.
  intros S0. destruct (exec_calls i m) as (cs & T & _ & K).
  unfold loader_sound in *. rewrite T.
  destruct K as [(I & G)|(I & l & I' & V & G)].
  - rewrite I. destruct (theInstance m) as [l|] eqn:E.
    + destruct S0 as (V & Old). split; [assumption|].
      intros h n Hin. apply in_app_or in Hin. destruct Hin as [Hin|Hin].
      * now apply (Old h n).
      * destruct (G h n Hin) as (l' & El & -> & Q).
        injection El as <-. auto.
    + intros h n Hin. apply in_app_or in Hin. destruct Hin as [Hin|Hin].
      * now apply (S0 h n).
      * destruct (G h n Hin) as (l' & El & _). discriminate.
  - rewrite I'. rewrite I in S0. split; [assumption|].
    intros h n Hin. apply in_app_or in Hin. destruct Hin as [Hin|Hin].
    + now destruct (S0 h n).
    + now apply (G h n).
Qed.

Lemma run_calls (prog : list invocation) :
  forall m,
    let m' := machine_of (run prog m) in
    (exists cs,
        trace m' = trace m ++ cs
        /\ (loads cs + unborn m' = unborn m)%nat)
    /\ (loader_sound m -> loader_sound m').
Proof.
  induction prog as [|i rest IH]; intros m; cbn zeta.
  - cbn. split; [|auto]. exists []. now rewrite app_nil_r.
  - cbn -[exec].
    destruct (exec_calls i m) as (cs & T & L & _).
    pose proof (exec_sound i m) as S1.
    destruct (exec i m) as [[] m1|f m1]; cbn [machine_of] in *.
    + destruct (IH m1) as ((cs' & T' & L') & S').
      split; [|auto].
      exists (cs ++ cs'). rewrite T', T, <- app_assoc.
      split; [reflexivity|]. rewrite loads_app. lia.
    + split; [|assumption]. now exists cs.
Qed.

(** X1.  Over any run of operations of the module the library is loaded at
    most once: exactly once when the run finds the singleton not yet
    constructed and constructs it, and never when it finds it constructed
    or leaves it unconstructed. *)
Theorem library_loaded_at_most_once (prog : list invocation) (m : Machine) :
  let m' := machine_of (run prog m) in
  exists cs,
    trace m' = trace m ++ cs
    /\ (loads cs <= 1)%nat
    /\ (theInstance m <> None -> loads cs = 0%nat)
    /\ (loads cs = 1%nat -> theInstance m = None /\ theInstance m' <> None)
    /\ (theInstance m' = None -> loads cs = 0%nat)
    /\ (theInstance m = None -> theInstance m' <> None -> loads cs = 1%nat).
Proof.
  cbn zeta. destruct (run_calls prog m) as ((cs & T & L) & _).
  exists cs. split; [assumption|]. unfold unborn in L.
  destruct (theInstance m) as [l|];
    destruct (theInstance (machine_of (run prog m))) as [l'|];
    repeat split; try lia; try congruence; try discriminate.
Qed.

(** X2.  From a machine on which the loader and the trace agree, and so
    from a cold start, every [GetProcAddress] of any run is made on the
    handle the singleton holds, and that handle is not null: the library is
    never searched through the null handle of a failed load. *)
Theorem lookups_use_the_loaded_library (prog : list invocation) (m : Machine) :
  loader_sound m ->
  let m' := machine_of (run prog m) in
  forall h n,
    In (GetProcAddress h n) (trace m') ->
    h <> 0 /\ exists l, theInstance m' = Some l /\ m_hLibGL l = h.
Proof.
  intros S0 m' h n Hin. subst m'.
  destruct (run_calls prog m) as (_ & S'). specialize (S' S0).
  unfold loader_sound in S'.
  destruct (theInstance (machine_of (run prog m))) as [l|].
  - destruct S' as (_ & G). destruct (G h n Hin) as (-> & N).
    split; [assumption|]. now exists l.
  - now destruct (S' h n).
Qed.

(** ** The life of a loader *)

(** X3.  A loader that is constructed and then destroyed frees the handle
    [LoadLibraryA] answered, once, when that handle is not null, and frees
    nothing when the load failed; the destructor leaves a null handle
    behind, so that running it again makes no call. *)
Theorem Loader_frees_what_it_loaded (m : Machine) :
  let h := wrap (os (trace m) (LoadLibraryA "opengl32.dll")) in
  exists l m1 l' m2,
    Loader_ctor m = Done l m1
    /\ m_hLibGL l = h
    /\ Loader_dtor l m1 = Done l' m2
    /\ trace m2 = trace m1 ++ (if h =? 0 then [] else [FreeLibrary h])
    /\ m_hLibGL l' = 0
    /\ Loader_dtor l' m2 = Done l' m2.
Proof.
  cbn zeta. unfold Loader_ctor, Loader_dtor. cbn.
  destruct (wrap (os (trace m) (LoadLibraryA "opengl32.dll")) =? 0) eqn:H; cbn.
  - apply Z.eqb_eq in H. do 4 eexists.
    split; [reflexivity|]. cbn. rewrite H. cbn.
    repeat split; auto. now rewrite app_nil_r.
  - do 4 eexists. split; [reflexivity|]. cbn. rewrite H. cbn.
    repeat split.
Qed.

(** ** The first invocation of a wrapper, end to end *)

(** X4.  With a loader that holds the query pointer and an empty slot, the
    whole first invocation is: ask the extension query; if it answers a
    proper address, cache it and call through it; if it answers null, 1, 2,
    3 or all-ones, ask the library, and cache and call through what the
    library answers, or stop when the library answers null too. *)
Theorem first_invocation_end_to_end
    (l : Loader) (name : string) (var : slot) (args : list value) (m : Machine) :
  (2 <= ptr_bits)%N ->
  theInstance m = Some l ->
  m_pfnWglGetProcAddress l <> 0 ->
  slots m var = 0 ->
  let query := Indirect (m_pfnWglGetProcAddress l) [VStr name] in
  let lookup := GetProcAddress (m_hLibGL l) name in
  let r := wrap (os (trace m) query) in
  let a := wrap (os (trace m ++ [query]) lookup) in
  let failed :=
    r = 0 \/ r = 1 \/ r = 2 \/ r = 3 \/ r = Z.ones (Z.of_N ptr_bits) in
  (~ failed ->
     exists m',
       entrypoint name var args m
         = Done (os (trace m ++ [query]) (Indirect r args)) m'
       /\ trace m' = trace m ++ [query; Indirect r args]
       /\ slots m' var = r)
  /\ (failed -> a <> 0 ->
     exists m',
       entrypoint name var args m
         = Done (os (trace m ++ [query; lookup]) (Indirect a args)) m'
       /\ trace m' = trace m ++ [query; lookup; Indirect a args]
       /\ slots m' var = a)
  /\ (failed -> a = 0 ->
     exists m',
       entrypoint name var args m
         = Stopped (if NDEBUG then NullCall else AssertionFailed) m'
       /\ trace m' = trace m ++ [query; lookup]
       /\ slots m' var = 0).
Proof.
  intros Hw I Hq Hs query lookup r a failed.
  pose proof (sentinel_test r Hw) as T. fold failed in T.
  assert (R : resolve name m =
    if (r =? 0) || (r =? reinterpret_cast_ptr 1)
       || (r =? reinterpret_cast_ptr 2) || (r =? reinterpret_cast_ptr 3)
       || (r =? reinterpret_cast_ptr (-1))
    then Done a (log lookup (log query m))
    else Done r (log query m)).
  { unfold resolve. cbn -[Loader_instance getProcAddress].
    rewrite (Loader_instance_cached l m I).
    now rewrite (getProcAddress_unfold l name m Hq). }
  destruct ((r =? 0) || (r =? reinterpret_cast_ptr 1)
       || (r =? reinterpret_cast_ptr 2) || (r =? reinterpret_cast_ptr 3)
       || (r =? reinterpret_cast_ptr (-1))) eqn:B.
  - assert (F : failed) by now apply T.
    split; [intros N; contradiction|]. split.
    + intros _ Ha.
      rewrite (entrypoint_first name var args m a _ Hs R).
      apply Z.eqb_neq in Ha. rewrite Ha.
      unfold log, with_slot; cbn [trace theInstance slots next_this].
      rewrite <- ?app_assoc. cbn [app].
      eexists. split; [reflexivity|]. cbn. rewrite set_slot_same. auto.
    + intros _ Ha.
      rewrite (entrypoint_first name var args m a _ Hs R).
      rewrite Ha. cbn.
      unfold log, with_slot; cbn [trace theInstance slots next_this].
      rewrite <- ?app_assoc. cbn [app].
      eexists. split; [reflexivity|]. cbn. rewrite set_slot_same. auto.
  - assert (F : ~ failed) by (intros F; apply T in F; discriminate).
    split; [|split; intros; contradiction].
    intros _.
    rewrite (entrypoint_first name var args m r _ Hs R).
    assert (Hr : r <> 0) by (intros E; apply F; now left).
    apply Z.eqb_neq in Hr. rewrite Hr.
    unfold log, with_slot; cbn [trace theInstance slots next_this].
    rewrite <- ?app_assoc. cbn [app].
    eexists. split; [reflexivity|]. cbn. rewrite set_slot_same. auto.
Qed.

(** ** Drawing frames *)

Lemma entrypoint_done_fills
    (name : string) (var : slot) (args : list value) (m : Machine)
    (r : Z) (m' : Machine) :
  entrypoint name var args m = Done r m' ->
  slots m' var <> 0
  /\ forall k, slots m k <> 0 -> slots m' k = slots m k.
Proof.
  intros E.
  pose proof (entrypoint_continues name var args m) as [(_ & S0 & _) K].
  rewrite E in S0, K. cbn [machine_of] in S0, K. split.
  - destruct (Z.eq_dec (slots m var) 0) as [H|H].
    + destruct (resolve_returns name m) as (p & m1 & R & _).
      rewrite (entrypoint_first name var args m p m1 H R) in E.
      destruct (p =? 0) eqn:P; [discriminate|].
      apply Z.eqb_neq in P. injection E as _ <-.
      unfold log, with_slot; cbn. now rewrite set_slot_same.
    + now rewrite (K H).
  - intros k Hk. destruct (slot_eq_dec var k) as [<-|D]; [now apply K|].
    apply S0. intros [?|[]]. contradiction.
Qed.

Lemma render_cached (app : GLApplication) (m : Machine) :
  slots m (Static "pfnViewport") <> 0 ->
  slots m (Static "pfnClearColor") <> 0 ->
  slots m (Static "pfnClear") <> 0 ->
  render app m =
    Done tt
      (mkMachine
         (trace m ++ frame_calls (slots m) (m_windowWidth app, m_windowHeight app))
         (theInstance m) (slots m) (next_this m)).
Proof.
  intros V C L. unfold render, glViewport, glClearColor, glClear.
  cbn -[entrypoint].
  rewrite (entrypoint_cached _ _ _ m V). cbn -[entrypoint].
  rewrite entrypoint_cached by exact C. cbn -[entrypoint].
  rewrite entrypoint_cached by exact L.
  unfold log, frame_calls; cbn. now rewrite <- !app_assoc.
Qed.

Lemma render_fills (app : GLApplication) (m m1 : Machine) :
  render app m = Done tt m1 ->
  slots m1 (Static "pfnViewport") <> 0
  /\ slots m1 (Static "pfnClearColor") <> 0
  /\ slots m1 (Static "pfnClear") <> 0.
Proof.
  unfold render, glViewport, glClearColor, glClear. cbn -[entrypoint].
  destruct (entrypoint _ _ _ m) as [r1 ma|] eqn:E1; [|discriminate].
  cbn -[entrypoint].
  destruct (entrypoint _ _ _ ma) as [r2 mb|] eqn:E2; [|discriminate].
  cbn -[entrypoint].
  destruct (entrypoint _ _ _ mb) as [r3 mc|] eqn:E3; [|discriminate].
  cbn. intros E. injection E as <-.
  destruct (entrypoint_done_fills _ _ _ _ _ _ E1) as (F1 & _).
  destruct (entrypoint_done_fills _ _ _ _ _ _ E2) as (F2 & K2).
  destruct (entrypoint_done_fills _ _ _ _ _ _ E3) as (F3 & K3).
  repeat split.
  - rewrite (K3 _), (K2 _); auto. rewrite (K2 _); auto.
  - rewrite (K3 _); auto.
  - exact F3.
Qed.

(** X5.  Once one [render] has returned, every later frame, whatever the
    window size is by then, consists of exactly three calls through the
    three addresses that frame cached: the viewport with that size, the
    clear colour and the clear with mask 0x4500.  The loader is not asked
    again and no slot changes. *)
Theorem frames_after_the_first
    (app : GLApplication) (m m1 : Machine) (sizes : list (Z * Z)) :
  render app m = Done tt m1 ->
  exists m',
    render_all app sizes m1 = Done tt m'
    /\ trace m' = trace m1 ++ flat_map (frame_calls (slots m1)) sizes
    /\ theInstance m' = theInstance m1
    /\ slots m' = slots m1.
Proof.
  intros E. destruct (render_fills app m m1 E) as (V & C & L). clear E m.
  revert m1 V C L.
  induction sizes as [|[w h] rest IH]; intros m1 V C L.
  - exists m1. cbn. now rewrite app_nil_r.
  - cbn -[render frame_calls].
    rewrite (render_cached _ m1 V C L). cbn -[frame_calls].
    destruct (IH (mkMachine (trace m1 ++ frame_calls (slots m1) (w, h))
                    (theInstance m1) (slots m1) (next_this m1)) V C L)
      as (m' & R & T & I & S0).
    exists m'. split; [exact R|]. cbn -[frame_calls] in T, I, S0.
    rewrite T, <- app_assoc. auto.
Qed.

(** ** Setting up the context: [initOpenGL] *)

Lemma entrypoint_done_shape
    (name : string) (var : slot) (args : list value) (m : Machine)
    (r : Z) (m' : Machine) :
  entrypoint name var args m = Done r m' ->
  exists cs,
    trace m' = (trace m ++ cs) ++ [Indirect (slots m' var) args]
    /\ r = os (trace m ++ cs) (Indirect (slots m' var) args)
    /\ next_this m' = next_this m.
Proof.
  intros E. destruct (Z.eq_dec (slots m var) 0) as [H|H].
  - destruct (resolve_returns name m) as (p & m1 & R & _ & (cs & T) & _ & N).
    rewrite (entrypoint_first name var args m p m1 H R) in E.
    destruct (p =? 0); [discriminate|]. injection E as <- <-.
    unfold log, with_slot; cbn. rewrite set_slot_same, T.
    exists cs. auto.
  - rewrite (entrypoint_cached name var args m H) in E.
    injection E as <- <-. unfold log; cbn.
    exists []. rewrite app_nil_r. auto.
Qed.

Lemma initOpenGL_unfold (ppfd : Z) (app : GLApplication) (m : Machine) :
  let dc := GetDC (m_hWnd app) in
  let h1 := wrap (os (trace m) dc) in
  let choose := ChoosePixelFormat h1 ppfd in
  let pf := os (trace m ++ [dc]) choose in
  let set := SetPixelFormat h1 pf ppfd in
  let h2 := wrap (os (trace m ++ [dc; choose; set]) dc) in
  let this := next_this m in
  let made cs :=
    mkMachine (trace m ++ cs) (theInstance m) (slots m) (S (next_this m)) in
  initOpenGL ppfd app m =
    if h1 =? 0
    then Done (set_pContext None app,
               Some "GLContext::createForWindow() failed.") (made [dc])
    else if os (trace m ++ [dc; choose]) set =? 0
    then Done (set_pContext None app,
               Some "GLContext::createForWindow() failed.")
              (made [dc; choose; set])
    else if h2 =? 0
    then Done (set_hDC 0 (set_pContext (Some this) app), Some "GetDC() failed.")
              (made [dc; choose; set; dc])
    else
      match wglCreateContext this h2
              (made [dc; choose; set; dc]) with
      | Stopped f m4 => Stopped f m4
      | Done r m4 =>
          let app3 :=
            set_hRC (wrap r) (set_hDC h2 (set_pContext (Some this) app)) in
          if wrap r =? 0
          then Done (app3, Some "GLContext::wglCreateContext() failed.") m4
          else
            match wglMakeCurrent this h2 (wrap r) m4 with
            | Stopped f m5 => Stopped f m5
            | Done ok m5 =>
                if ok =? 0
                then Done (app3, Some "GLContext::wglMakeCurrent() failed.") m5
                else Done (app3, None) m5
            end
      end.
Proof.
  cbn zeta. unfold initOpenGL. cbn -[createForWindow wglCreateContext wglMakeCurrent].
  rewrite (createForWindow_unfold (m_hWnd app) ppfd m). cbn zeta.
  destruct (wrap (os (trace m) (GetDC (m_hWnd app))) =? 0); [reflexivity|].
  match goal with |- context [if ?b then _ else _] => destruct b end;
    [reflexivity|].
  cbn -[wglCreateContext wglMakeCurrent].
  unfold log; cbn -[wglCreateContext wglMakeCurrent].
  rewrite <- !app_assoc. cbn -[wglCreateContext wglMakeCurrent].
  match goal with |- context [if ?b then _ else _] => destruct b eqn:H2 end.
  - apply Z.eqb_eq in H2. now rewrite H2.
  - cbn -[wglCreateContext wglMakeCurrent].
    match goal with |- context [wglCreateContext ?a ?b ?c] =>
      destruct (wglCreateContext a b c) as [r m4|f m4] end; [|reflexivity].
    cbn -[wglMakeCurrent].
    destruct (wrap r =? 0); [reflexivity|].
    match goal with |- context [wglMakeCurrent ?a ?b ?c ?d] =>
      destruct (wglMakeCurrent a b c d) as [ok m5|f m5] end; [|reflexivity].
    cbn. destruct (ok =? 0); reflexivity.
Qed.

(** X7.  When the window gives no device context, or the pixel format is
    refused, [initOpenGL] throws "GLContext::createForWindow() failed." and
    holds no context object; when its own [GetDC] gives nothing it throws
    "GetDC() failed.".  In all three cases it has made no call but
    [GetDC], [ChoosePixelFormat] and [SetPixelFormat]: the loader is as it
    was, no slot is written and [m_hRC] is untouched. *)
Theorem initOpenGL_fails_before_the_driver
    (ppfd : Z) (app : GLApplication) (m : Machine) :
  let dc := GetDC (m_hWnd app) in
  let h1 := wrap (os (trace m) dc) in
  let choose := ChoosePixelFormat h1 ppfd in
  let pf := os (trace m ++ [dc]) choose in
  let set := SetPixelFormat h1 pf ppfd in
  let h2 := wrap (os (trace m ++ [dc; choose; set]) dc) in
  let made cs :=
    mkMachine (trace m ++ cs) (theInstance m) (slots m) (S (next_this m)) in
  (h1 = 0 ->
     initOpenGL ppfd app m
       = Done (set_pContext None app,
               Some "GLContext::createForWindow() failed.") (made [dc]))
  /\ (h1 <> 0 -> os (trace m ++ [dc; choose]) set = 0 ->
     initOpenGL ppfd app m
       = Done (set_pContext None app,
               Some "GLContext::createForWindow() failed.")
              (made [dc; choose; set]))
  /\ (h1 <> 0 -> os (trace m ++ [dc; choose]) set <> 0 -> h2 = 0 ->
     initOpenGL ppfd app m
       = Done (set_hDC 0 (set_pContext (Some (next_this m)) app),
               Some "GetDC() failed.")
              (made [dc; choose; set; dc])).
Proof.
  intros dc h1 choose pf set h2 made.
  pose proof (initOpenGL_unfold ppfd app m) as E. cbn zeta in E.
  fold dc h1 choose pf set h2 in E. fold made in E.
  split; [|split].
  - intros H1. rewrite E, H1. reflexivity.
  - intros H1 S0. apply Z.eqb_neq in H1. rewrite E, H1, S0. reflexivity.
  - intros H1 S0 H2. apply Z.eqb_neq in H1, S0.
    rewrite E, H1, S0, H2. reflexivity.
Qed.

(** X6.  When [initOpenGL] returns without throwing, the object holds a new
    context object, the device context its own [GetDC] answered and a
    rendering context that is not null.  The pixel format was set on the
    handle the first [GetDC] answered; the rendering context was created
    through the slot of [wglCreateContext] on the handle the second [GetDC]
    answered; and the last call made it current on that handle through the
    slot of [wglMakeCurrent], with the platform answering success. *)
Theorem initOpenGL_makes_its_context_current
    (ppfd : Z) (app app' : GLApplication) (m m' : Machine) :
  initOpenGL ppfd app m = Done (app', None) m' ->
  let dc := GetDC (m_hWnd app) in
  let h1 := wrap (os (trace m) dc) in
  let choose := ChoosePixelFormat h1 ppfd in
  let pf := os (trace m ++ [dc]) choose in
  let set := SetPixelFormat h1 pf ppfd in
  let h2 := wrap (os (trace m ++ [dc; choose; set]) dc) in
  let this := next_this m in
  let create := Indirect (slots m' (Member this "m_pfnWglCreateContext")) [VPtr h2] in
  let current :=
    Indirect (slots m' (Member this "m_pfnWglMakeCurrent"))
      [VPtr h2; VPtr (m_hRC app')] in
  app' = set_hRC (m_hRC app') (set_hDC h2 (set_pContext (Some this) app))
  /\ h1 <> 0 /\ h2 <> 0 /\ m_hRC app' <> 0
  /\ slots m' (Member this "m_pfnWglCreateContext") <> 0
  /\ slots m' (Member this "m_pfnWglMakeCurrent") <> 0
  /\ exists cs1 cs2,
       let before_create := trace m ++ [dc; choose; set; dc] ++ cs1 in
       let before_current := before_create ++ [create] ++ cs2 in
       trace m' = before_current ++ [current]
       /\ m_hRC app' = wrap (os before_create create)
       /\ os before_current current <> 0.
Proof.
  intros E dc h1 choose pf set h2 this create current.
  rewrite (initOpenGL_unfold ppfd app m) in E. cbn zeta in E.
  fold dc h1 choose pf set h2 this in E.
  destruct (h1 =? 0) eqn:H1; [discriminate|].
  destruct (os (trace m ++ [dc; choose]) set =? 0) eqn:S0; [discriminate|].
  destruct (h2 =? 0) eqn:H2; [discriminate|].
  apply Z.eqb_neq in H1, H2.
  unfold wglCreateContext, wglMakeCurrent in E.
  match type of E with context [entrypoint ?n ?v ?a ?x] =>
    destruct (entrypoint n v a x) as [r m4|f m4] eqn:E1 end; [|discriminate].
  cbn zeta in E.
  destruct (wrap r =? 0) eqn:R0; [discriminate|]. apply Z.eqb_neq in R0.
  match type of E with context [entrypoint ?n ?v ?a ?x] =>
    destruct (entrypoint n v a x) as [ok m5|f m5] eqn:E2 end; [|discriminate].
  destruct (ok =? 0) eqn:K0; [discriminate|]. apply Z.eqb_neq in K0.
  injection E as <- <-.
  destruct (entrypoint_done_shape _ _ _ _ _ _ E1) as (cs1 & T1 & Rv & N1).
  destruct (entrypoint_done_shape _ _ _ _ _ _ E2) as (cs2 & T2 & Kv & N2).
  destruct (entrypoint_done_fills _ _ _ _ _ _ E1) as (F1 & _).
  destruct (entrypoint_done_fills _ _ _ _ _ _ E2) as (F2 & K2).
  assert (Same : slots m5 (Member this "m_pfnWglCreateContext")
                 = slots m4 (Member this "m_pfnWglCreateContext"))
    by now apply K2.
  cbn [trace] in T1, Rv.
  subst create current. cbn [m_hRC set_hRC].
  rewrite Same.
  split; [reflexivity|]. repeat (split; [assumption|]).
  exists cs1, cs2. cbn zeta.
  rewrite T1 in T2, Kv.
  repeat rewrite <- app_assoc in T1.
  repeat rewrite <- app_assoc in Rv.
  repeat rewrite <- app_assoc in T2.
  repeat rewrite <- app_assoc in Kv.
  cbn [List.app] in T1, Rv, T2, Kv.
  repeat rewrite <- app_assoc. cbn [List.app].
  split; [exact T2|]. split; [now rewrite Rv|].
  rewrite <- Kv. exact K0.
Qed.

(** ** Tearing down: [destroy] *)

Lemma destroy_unfold (app : GLApplication) (m : Machine) :
  let tail (a : GLApplication) (mm : Machine) :=
    let unregister :=
      (length (trace mm),
       UnregisterClassW (lpszClassName (m_wcl a)) (m_hInstance a)) in
    if m_hDC a =? 0
    then Done (a, [unregister]) mm
    else Done (set_hDC 0 a,
               [(length (trace mm), ReleaseDC (m_hWnd a) (m_hDC a)); unregister])
              mm in
  destroy app m =
    match m_pContext app with
    | Some this =>
        if m_hRC app =? 0 then tail app m
        else
          match wglMakeCurrent this (m_hDC app) 0 m with
          | Stopped f m1 => Stopped f m1
          | Done _ m1 =>
              match wglDeleteContext this (m_hRC app) m1 with
              | Stopped f m2 => Stopped f m2
              | Done _ m2 => tail (set_hRC 0 app) m2
              end
          end
    | None => tail app m
    end.
Proof.
  cbn zeta. unfold destroy.
  destruct (m_pContext app) as [this|].
  - destruct (m_hRC app =? 0) eqn:R.
    + cbn. destruct (m_hDC app =? 0); reflexivity.
    + cbn -[wglMakeCurrent wglDeleteContext].
      destruct (wglMakeCurrent this (m_hDC app) 0 m) as [r1 m1|f m1];
        [|reflexivity].
      cbn -[wglDeleteContext].
      destruct (wglDeleteContext this (m_hRC app) m1) as [r2 m2|f m2];
        [|reflexivity].
      cbn. destruct (m_hDC app =? 0); reflexivity.
  - cbn. destruct (m_hDC app =? 0); reflexivity.
Qed.

(** X8.  [destroy] deletes the rendering context only when the object holds
    both a context object and a rendering context, and then it first makes
    no context current on the device context ([wglMakeCurrent] with a null
    context) and deletes afterwards; otherwise it makes no call of
    OpenGL.cpp at all.  It releases the device context exactly when the
    object holds one, unregisters the window class in every case, and does
    both after the driver calls.  When it returns, the device context is
    null, and so is the rendering context if there was a context object.
    It can stop only inside one of the two wrappers. *)
Theorem destroy_uncurrents_then_deletes (app : GLApplication) (m : Machine) :
  match destroy app m with
  | Done (app', wins) m' =>
      m_hDC app' = 0
      /\ (m_pContext app <> None -> m_hRC app' = 0)
      /\ wins
         = (if m_hDC app =? 0 then []
            else [(length (trace m'), ReleaseDC (m_hWnd app) (m_hDC app))])
           ++ [(length (trace m'),
                UnregisterClassW (lpszClassName (m_wcl app)) (m_hInstance app))]
      /\ match m_pContext app with
         | Some this =>
             if m_hRC app =? 0 then m' = m
             else
               exists cs1 cs2,
                 trace m'
                 = trace m ++ cs1
                   ++ [Indirect (slots m' (Member this "m_pfnWglMakeCurrent"))
                         [VPtr (m_hDC app); VPtr 0]]
                   ++ cs2
                   ++ [Indirect (slots m' (Member this "m_pfnWglDeleteContext"))
                         [VPtr (m_hRC app)]]
         | None => m' = m
         end
  | Stopped f m' =>
      exists this, m_pContext app = Some this /\ m_hRC app <> 0
  end.
Proof.
  rewrite (destroy_unfold app m). cbn zeta.
  destruct (m_pContext app) as [this|] eqn:C.
  - destruct (m_hRC app =? 0) eqn:R.
    + apply Z.eqb_eq in R.
      destruct (m_hDC app =? 0) eqn:D; [apply Z.eqb_eq in D|];
        repeat split; auto.
    + apply Z.eqb_neq in R. unfold wglMakeCurrent, wglDeleteContext.
      destruct (entrypoint "wglMakeCurrent" _ _ m) as [r1 m1|f m1] eqn:E1;
        [|now exists this].
      destruct (entrypoint "wglDeleteContext" _ _ m1) as [r2 m2|f m2] eqn:E2;
        [|now exists this].
      destruct (entrypoint_done_shape _ _ _ _ _ _ E1) as (cs1 & T1 & _).
      destruct (entrypoint_done_shape _ _ _ _ _ _ E2) as (cs2 & T2 & _).
      destruct (entrypoint_done_fills _ _ _ _ _ _ E1) as (F1 & _).
      destruct (entrypoint_done_fills _ _ _ _ _ _ E2) as (_ & K2).
      rewrite <- (K2 _ F1) in T1.
      assert (T : trace m2
                  = trace m ++ cs1
                    ++ [Indirect (slots m2 (Member this "m_pfnWglMakeCurrent"))
                          [VPtr (m_hDC app); VPtr 0]]
                    ++ cs2
                    ++ [Indirect (slots m2 (Member this "m_pfnWglDeleteContext"))
                          [VPtr (m_hRC app)]]).
      { rewrite T2, T1. repeat rewrite <- app_assoc. reflexivity. }
      cbn [m_hDC m_hWnd m_wcl m_hInstance set_hRC].
      destruct (m_hDC app =? 0) eqn:D; [apply Z.eqb_eq in D|];
        (split; [assumption || reflexivity|]);
        (split; [reflexivity|]); (split; [reflexivity|]);
        now exists cs1, cs2.
  - destruct (m_hDC app =? 0) eqn:D; [apply Z.eqb_eq in D|];
      repeat split; auto; intros N; now contradiction N.
Qed.

(** X9.  After a [destroy] that returned, on an object that has a context
    object or never had a rendering context, a second [destroy] makes no
    call of OpenGL.cpp and releases nothing: all it does is unregister the
    window class once more. *)
Theorem destroy_again_only_unregisters
    (app app' : GLApplication) (wins : list (nat * WinCall)) (m m' : Machine) :
  destroy app m = Done (app', wins) m' ->
  m_pContext app <> None \/ m_hRC app = 0 ->
  destroy app' m'
    = Done (app',
            [(length (trace m'),
              UnregisterClassW (lpszClassName (m_wcl app)) (m_hInstance app))])
           m'.
Proof.
  intros E H.
  assert (P : m_hDC app' = 0 /\ m_hRC app' = 0
              /\ m_wcl app' = m_wcl app /\ m_hInstance app' = m_hInstance app).
  { rewrite (destroy_unfold app m) in E. cbn zeta in E.
    destruct (m_pContext app) as [this|] eqn:C.
    - destruct (m_hRC app =? 0) eqn:R.
      + apply Z.eqb_eq in R.
        destruct (m_hDC app =? 0) eqn:D; [apply Z.eqb_eq in D|];
          injection E as <- _ _; auto.
      + destruct (wglMakeCurrent this (m_hDC app) 0 m) as [r1 m1|f m1];
          [|discriminate].
        destruct (wglDeleteContext this (m_hRC app) m1) as [r2 m2|f m2];
          [|discriminate].
        cbn [m_hDC m_hWnd m_wcl m_hInstance set_hRC] in E.
        destruct (m_hDC app =? 0) eqn:D; [apply Z.eqb_eq in D|];
          injection E as <- _ _; auto.
    - destruct H as [H|H]; [now contradiction H|].
      destruct (m_hDC app =? 0) eqn:D; [apply Z.eqb_eq in D|];
        injection E as <- _ _; auto. }
  destruct P as (D & R & W & I).
  rewrite (destroy_unfold app' m'). cbn zeta.
  rewrite D, R, W, I. cbn. destruct (m_pContext app'); reflexivity.
Qed.


End Program.

(** * Debug and release builds *)

Lemma exec_builds_agree
    (ptr_bits : N) (os : list Call -> Call -> Z) (i : invocation) (m : Machine) :
  match exec ptr_bits false os i m, exec ptr_bits true os i m with
  | Done _ m1, Done _ m2 => m1 = m2
  | Stopped f1 m1, Stopped f2 m2 =>
      f1 = AssertionFailed /\ f2 = NullCall /\ m1 = m2
  | _, _ => False
  end.
Proof.
  destruct i as [name var args|this name|this hdc|hWnd ppfd].
  - cbn -[entrypoint].
    destruct (Z.eq_dec (slots m var) 0) as [H|H].
    + destruct (resolve_returns ptr_bits os name m) as (p & m1 & R & _).
      rewrite (entrypoint_first ptr_bits false os name var args m p m1 H R).
      rewrite (entrypoint_first ptr_bits true os name var args m p m1 H R).
      destruct (p =? 0); cbn; auto.
    + rewrite !entrypoint_cached by exact H. reflexivity.
  - cbn -[resolve]. unfold wglGetProcAddress.
    destruct (resolve_returns ptr_bits os name m) as (p & m1 & R & _).
    rewrite R. reflexivity.
  - reflexivity.
  - cbn -[createForWindow].
    rewrite (createForWindow_unfold ptr_bits os hWnd ppfd m). cbn zeta.
    destruct (wrap ptr_bits (os (trace m) (GetDC hWnd)) =? 0);
      [reflexivity|].
    match goal with |- context [if ?b then _ else _] => destruct b end;
      reflexivity.
Qed.

(** X11.  A debug build and an NDEBUG build make the same platform calls
    and leave the same machine over any run of operations of the module.
    They differ in one thing only: where a symbol cannot be resolved, the
    debug build stops on the assertion and the NDEBUG build on the call
    through the null pointer, at the same point of the trace. *)
Theorem builds_differ_only_in_the_stop
    (ptr_bits : N) (os : list Call -> Call -> Z)
    (prog : list invocation) (m : Machine) :
  match run ptr_bits false os prog m, run ptr_bits true os prog m with
  | Done _ m1, Done _ m2 => m1 = m2
  | Stopped f1 m1, Stopped f2 m2 =>
      f1 = AssertionFailed /\ f2 = NullCall /\ m1 = m2
  | _, _ => False
  end.
Proof.
  revert m. induction prog as [|i rest IH]; intros m; [reflexivity|].
  cbn -[exec].
  pose proof (exec_builds_agree ptr_bits os i m) as A.
  destruct (exec ptr_bits false os i m) as [[] m1|f1 m1];
    destruct (exec ptr_bits true os i m) as [[] m2|f2 m2];
    try contradiction.
  - subst m2. apply IH.
  - exact A.
Qed.

(** * The properties at work *)

(** The end-to-end scenario from a cold start: [fnA] comes from the library
    (the extension query answered the sentinel 1), [fnB] from the extension
    query, and [fnC], which neither tier knows, is null. *)
Example resolve_fnA :
  resolve 64 fake_os "fnA" boot
    = Done 40960
        (mkMachine [LoadLibraryA "opengl32.dll";
                    GetProcAddress 28672 "wglGetProcAddress";
                    Indirect 28928 [VStr "fnA"];
                    GetProcAddress 28672 "fnA"]
                   (Some (mkLoader 28672 28928)) (slots boot) 0).
Proof. reflexivity. Qed.

Example resolve_fnB :
  resolve 64 fake_os "fnB" loaded
    = Done 45312 (log (Indirect 28928 [VStr "fnB"]) loaded).
Proof. reflexivity. Qed.

Example resolve_fnC :
  resolve 64 fake_os "fnC" loaded
    = Done 0 (log (GetProcAddress 28672 "fnC")
                (log (Indirect 28928 [VStr "fnC"]) loaded)).
Proof. reflexivity. Qed.

(** The all-ones sentinel on a 32-bit and on a 64-bit build. *)
Example all_ones_32 : reinterpret_cast_ptr 32 (-1) = 4294967295.
Proof. reflexivity. Qed.

Example all_ones_64 : reinterpret_cast_ptr 64 (-1) = 18446744073709551615.
Proof. reflexivity. Qed.

(** On the drifting driver the loader answers 36866 to the first query and
    would answer 36868 to the next; the wrapper asks once and calls through
    36866 both times. *)
Example drifting_driver_is_asked_once :
  trace (machine_of
           (run 64 false drifting_os
              [Invoke "glFlush" (Static "pfnFlush") [];
               Invoke "glFlush" (Static "pfnFlush") []] loaded))
    = [LoadLibraryA "opengl32.dll";
       GetProcAddress 28672 "wglGetProcAddress";
       Indirect 28928 [VStr "glFlush"];
       Indirect 36866 [];
       Indirect 36866 []].
Proof. reflexivity. Qed.

(** The frame Main.cpp draws, on the fake driver, which knows none of the
    three symbols: the debug build stops at the first assertion. *)
Example render_without_symbols :
  (glViewport 64 false fake_os 0 0 640 480 ;;
   glClearColor 64 false fake_os 1050253722 1056964608 1063675494 0 ;;
   glClear 64 false fake_os 17664) loaded
    = Stopped AssertionFailed
        (with_slot (Static "pfnViewport") 0
           (log (GetProcAddress 28672 "glViewport")
              (log (Indirect 28928 [VStr "glViewport"]) loaded))).
Proof. reflexivity. Qed.

(** The scenario of the fake driver: [fnA] is answered with the sentinel 1
    and comes from the library, [fnB] comes from the extension query. *)
Lemma getProcAddress_extension_then_fallback_witness :
  getProcAddress 64 fake_os (mkLoader 28672 28928) "fnA" loaded
    = Done 40960
        (log (GetProcAddress 28672 "fnA") (log (Indirect 28928 [VStr "fnA"]) loaded))
  /\ getProcAddress 64 fake_os (mkLoader 28672 28928) "fnB" loaded
    = Done 45312 (log (Indirect 28928 [VStr "fnB"]) loaded).
Proof.
  assert (W : (2 <= 64)%N) by discriminate.
  assert (Q : m_pfnWglGetProcAddress (mkLoader 28672 28928) <> 0)
    by discriminate.
  split.
  - apply (proj1 (getProcAddress_extension_then_fallback
                    64 fake_os (mkLoader 28672 28928) "fnA" loaded W Q)).
    right; left; reflexivity.
  - apply (proj2 (getProcAddress_extension_then_fallback
                    64 fake_os (mkLoader 28672 28928) "fnB" loaded W Q)).
    vm_compute. intros [H|[H|[H|[H|H]]]]; discriminate H.
Defined.

(** The wrapper of [fnB] on the fake driver, first from a cold start and
    then again: the second invocation calls through the address the first
    one cached. *)
Lemma cache_slot_written_once_witness :
  exists m1 m2,
    entrypoint 64 false fake_os "fnB" (Static "pfnB") [VInt 1] boot = Done 7 m1
    /\ entrypoint 64 false fake_os "fnB" (Static "pfnB") [VInt 2] m1 = Done 7 m2
    /\ slots m1 (Static "pfnB") = 45312
    /\ slots m2 (Static "pfnB") = 45312
    /\ slots (machine_of (run 64 false fake_os
                [Invoke "fnA" (Static "pfnA") []; Create 4660 22136;
                 Query 0 "fnB"; Invoke "fnB" (Static "pfnB") []; Present 0 80]
                m2)) (Static "pfnB") = 45312
    /\ last (trace m2) (LoadLibraryA "") = Indirect 45312 [VInt 2].
Proof.
  destruct (cache_slot_written_once 64 false fake_os "fnB" (Static "pfnB"))
    as (First & _ & Kept & Hit & Twice).
  destruct (entrypoint 64 false fake_os "fnB" (Static "pfnB") [VInt 1] boot)
    as [r1 m1|f1 m1] eqn:E1; [|vm_compute in E1; discriminate].
  destruct (entrypoint 64 false fake_os "fnB" (Static "pfnB") [VInt 2] m1)
    as [r2 m2|f2 m2] eqn:E2.
  2:{ vm_compute in E1. injection E1 as _ <-. vm_compute in E2. discriminate. }
  destruct (First [VInt 1] boot r1 m1 eq_refl E1) as (p & m0 & R & Pn & S1).
  destruct (Twice [VInt 1] [VInt 2] boot r1 m1 r2 m2 E1 E2)
    as (a & tr & An & A1 & A2 & T1 & T2).
  assert (P : p = 45312) by (vm_compute in R; congruence).
  assert (R1 : r1 = 7) by (vm_compute in E1; congruence).
  assert (Fill : slots m2 (Static "pfnB") <> 0) by congruence.
  assert (R2 : r2 = 7).
  { rewrite (Hit [VInt 2] m1) in E2 by congruence.
    injection E2 as <- _. rewrite S1, P. reflexivity. }
  exists m1, m2. subst r1 r2.
  repeat split; try congruence.
  - rewrite (Kept _ m2 Fill). congruence.
  - rewrite T2, last_last. congruence.
Defined.

(** Two of the wrappers at work: [wglCreateContext] on a cold machine,
    whose symbol comes from the library, and [glGetError] with its symbol
    from the extension query. *)
Lemma every_wrapper_forwards_its_arguments_witness :
  (exists m',
      wglCreateContext 64 false fresh_dc_os 0 83 boot = Done 4096 m'
      /\ slots m' (Member 0 "m_pfnWglCreateContext") = 40960
      /\ last (trace m') (LoadLibraryA "") = Indirect 40960 [VPtr 83])
  /\ (exists m',
      glGetError 64 false drifting_os loaded = Done 7 m'
      /\ slots m' (Static "pfnGetError") = 36866
      /\ last (trace m') (LoadLibraryA "") = Indirect 36866 []).
Proof.
  split.
  - pose proof (every_wrapper_forwards_its_arguments 64 false fresh_dc_os)
      as (_ & Create & _).
    destruct (Create 0%nat 83 boot) as [F Ret].
    destruct Ret as (r & m' & E).
    { right. exists 40960. eexists.
      split; [vm_compute; reflexivity | discriminate]. }
    rewrite E in F. destruct F as (pre & _ & T & _ & _ & First).
    destruct (First eq_refl) as (m1 & R & _).
    assert (A : slots m' (Member 0 "m_pfnWglCreateContext") = 40960)
      by (vm_compute in R; injection R as Ea _; now symmetry).
    assert (V : r = 4096)
      by (vm_compute in E; injection E as Er _; now symmetry).
    exists m'. subst r. split; [exact E|]. split; [exact A|].
    rewrite T, last_last, A. reflexivity.
  - pose proof (every_wrapper_forwards_its_arguments 64 false drifting_os)
      as All.
    repeat match type of All with
           | _ /\ _ => let W := fresh "W" in destruct All as [W All]
           end.
    match goal with
    | K : forwards _ _ (glGetError _ _ _) _ _ _ |- _ =>
        destruct (K loaded) as [F Ret]
    end.
    destruct Ret as (r & m' & E).
    { right. exists 36866. eexists.
      split; [vm_compute; reflexivity | discriminate]. }
    rewrite E in F. destruct F as (pre & _ & T & _ & _ & First).
    destruct (First eq_refl) as (m1 & R & _).
    assert (A : slots m' (Static "pfnGetError") = 36866)
      by (vm_compute in R; injection R as Ea _; now symmetry).
    assert (V : r = 7)
      by (vm_compute in E; injection E as Er _; now symmetry).
    exists m'. subst r. split; [exact E|]. split; [exact A|].
    rewrite T, last_last, A. reflexivity.
Defined.

(** Without opengl32.dll the resolution of [glClear] goes ahead and returns
    null, and so does [OpenGLContext::wglGetProcAddress]; nothing stops. *)
Lemma missing_driver_goes_unreported :
  no_driver_os [] (LoadLibraryA "opengl32.dll") = 0
  /\ resolve 64 no_driver_os "glClear" boot
    = Done 0 (mkMachine [LoadLibraryA "opengl32.dll"] (Some (mkLoader 0 0))
                        (slots boot) 0)
  /\ wglGetProcAddress 64 no_driver_os 0 "glClear" boot
    = Done 0 (mkMachine [LoadLibraryA "opengl32.dll"] (Some (mkLoader 0 0))
                        (slots boot) 0).
Proof. repeat split; reflexivity. Qed.

Lemma missing_driver_resolves_to_null_witness :
  (exists m1,
      resolve 64 no_driver_os "glClear" boot = Done 0 m1
      /\ trace m1 = [LoadLibraryA "opengl32.dll"])
  /\ (exists m',
      entrypoint 64 false no_driver_os "glClear" (Static "pfnClear") [VInt 16640] boot
        = Stopped AssertionFailed m')
  /\ (exists m',
      entrypoint 64 true no_query_os "glClear" (Static "pfnClear") [VInt 16640] boot
        = Stopped NullCall m').
Proof.
  destruct (missing_driver_resolves_to_null 64 false no_driver_os "glClear" boot
              eq_refl (or_introl eq_refl)) as (R & _ & Stop).
  destruct (missing_driver_resolves_to_null 64 true no_query_os "glClear" boot
              eq_refl (or_intror eq_refl)) as (_ & _ & Stop').
  split; [exact R|]. split.
  - exact (Stop (Static "pfnClear") [VInt 16640] eq_refl).
  - exact (Stop' (Static "pfnClear") [VInt 16640] eq_refl).
Defined.


(** The library is there and exports [glClear], the query function is not:
    [glClear] still resolves to null, and the library is not asked for it. *)
Lemma getProcAddress_without_query_is_null_witness :
  getProcAddress 64 no_query_os (mkLoader 28672 0) "glClear" boot = Done 0 boot
  /\ exists m1,
       resolve 64 no_query_os "glClear" boot = Done 0 m1
       /\ trace m1 = [LoadLibraryA "opengl32.dll";
                      GetProcAddress 28672 "wglGetProcAddress"]
       /\ resolve 64 no_query_os "glClear" m1 = Done 0 m1.
Proof.
  destruct (getProcAddress_without_query_is_null 64 no_query_os "glClear" boot)
    as (Null & Fresh).
  split; [apply Null; reflexivity|].
  destruct (Fresh eq_refl (or_intror eq_refl)) as (m1 & R & _ & T & R').
  exists m1. repeat split; assumption.
Defined.

(** Presenting the back buffer on a cold machine: one call, no loader. *)
Lemma SwapBuffers_is_a_direct_call_witness :
  exists m',
    SwapBuffers fake_os 0 80 boot = Done 1 m'
    /\ trace m' = [GdiSwapBuffers 80]
    /\ theInstance m' = None.
Proof.
  destruct (SwapBuffers_is_a_direct_call 64 false fake_os 0 80 boot)
    as ((m' & E & T & I & _) & _).
  exists m'. repeat split; assumption.
Defined.

(** Format negotiation that finds nothing, and a format the surface
    refuses, both on platforms that refuse format 0. *)
Lemma createForWindow_fails_without_a_format_witness :
  one_based_formats no_format_os
  /\ one_based_formats refused_format_os
  /\ (exists m',
      createForWindow 64 no_format_os 4660 22136 boot = Done None m'
      /\ trace m' = [GetDC 4660; ChoosePixelFormat 80 22136;
                     SetPixelFormat 80 0 22136]
      /\ theInstance m' = None)
  /\ (exists m',
      createForWindow 64 refused_format_os 4660 22136 boot = Done None m'
      /\ trace m' = [GetDC 4660; ChoosePixelFormat 80 22136;
                     SetPixelFormat 80 5 22136]
      /\ theInstance m' = None).
Proof.
  assert (C1 : one_based_formats no_format_os)
    by (intros tr hdc ppfd; reflexivity).
  assert (C2 : one_based_formats refused_format_os)
    by (intros tr hdc ppfd; reflexivity).
  split; [exact C1|]. split; [exact C2|]. split.
  - destruct (createForWindow_fails_without_a_format
                64 no_format_os 4660 22136 boot C1)
      as (m' & E & T & I & _);
      [discriminate | left; reflexivity |].
    exists m'. repeat split; assumption.
  - destruct (createForWindow_fails_without_a_format
                64 refused_format_os 4660 22136 boot C2)
      as (m' & E & T & I & _);
      [discriminate | right; reflexivity |].
    exists m'. repeat split; assumption.
Defined.

Lemma createForWindow_without_device_context_witness :
  exists m',
    createForWindow 64 no_dc_os 4660 22136 boot = Done None m'
    /\ trace m' = [GetDC 4660]
    /\ theInstance m' = None.
Proof.
  destruct (createForWindow_without_device_context
              64 no_dc_os 4660 22136 boot eq_refl)
    as (m' & E & T & I & _).
  exists m'. repeat split; assumption.
Defined.

(** Three queries for [fnB] are three calls of the extension query, and on
    the drifting driver they bring three different answers. *)
Lemma wglGetProcAddress_asks_every_time_witness :
  (exists rs m',
      query_n 64 fake_os 3 0 "fnB" loaded = Done rs m'
      /\ length rs = 3%nat
      /\ occurrences (Indirect 28928 [VStr "fnB"]) (trace m') = 3%nat)
  /\ exists m',
      query_n 64 drifting_os 3 0 "fnB" loaded = Done [36866; 36867; 36868] m'.
Proof.
  destruct (wglGetProcAddress_asks_every_time 64 fake_os 0 "fnB")
    as (_ & _ & Count).
  split.
  - destruct (Count 3%nat (mkLoader 28672 28928) loaded eq_refl)
      as (rs & m' & E & Len & O); [discriminate|].
    exists rs, m'. repeat split; assumption.
  - eexists. vm_compute. reflexivity.
Defined.

(** * The further properties at work *)

(** From a cold start a run loads the library once; from a machine whose
    loader exists the same run loads nothing. *)
Lemma library_loaded_at_most_once_witness :
  loads (trace (machine_of
           (run 64 false fake_os
              [Invoke "fnA" (Static "pfnA") []; Query 0 "fnB";
               Invoke "fnB" (Static "pfnB") []; Create 4660 22136] boot)))
    = 1%nat
  /\ loads (trace (machine_of
              (run 64 false fake_os
                 [Invoke "fnA" (Static "pfnA") []; Query 0 "fnB";
                  Invoke "fnB" (Static "pfnB") []; Create 4660 22136] loaded)))
     = loads (trace loaded).
Proof.
  split.
  - destruct (library_loaded_at_most_once 64 false fake_os
                [Invoke "fnA" (Static "pfnA") []; Query 0 "fnB";
                 Invoke "fnB" (Static "pfnB") []; Create 4660 22136] boot)
      as (cs & T & _ & _ & _ & _ & One).
    rewrite T. cbn [trace boot List.app].
    apply One; [reflexivity | vm_compute; discriminate].
  - destruct (library_loaded_at_most_once 64 false fake_os
                [Invoke "fnA" (Static "pfnA") []; Query 0 "fnB";
                 Invoke "fnB" (Static "pfnB") []; Create 4660 22136] loaded)
      as (cs & T & _ & Zero & _).
    rewrite T, loads_app, Zero by discriminate. lia.
Defined.

(** A run from a cold start that resolves [fnA] through the library: the
    lookup went to the handle [LoadLibraryA] had answered. *)
Lemma lookups_use_the_loaded_library_witness :
  loader_sound boot
  /\ 28672 <> 0
  /\ exists l,
       theInstance
         (machine_of
            (run 64 false fake_os
               [Invoke "fnA" (Static "pfnA") []; Create 4660 22136;
                Query 0 "fnC"; Present 0 80] boot)) = Some l
       /\ m_hLibGL l = 28672.
Proof.
  assert (S0 : loader_sound boot) by (intros h n []).
  split; [exact S0|].
  apply (lookups_use_the_loaded_library 64 false fake_os
           [Invoke "fnA" (Static "pfnA") []; Create 4660 22136;
            Query 0 "fnC"; Present 0 80] boot S0 28672 "fnA").
  vm_compute. do 3 right. left. reflexivity.
Defined.

(** The three ways of a first invocation on the fake driver: [fnB] is
    answered by the extension query, [fnA] by the library, [fnC] by
    neither. *)
Lemma first_invocation_end_to_end_witness :
  (exists m',
      entrypoint 64 false fake_os "fnB" (Static "pfnB") [VInt 9] loaded = Done 7 m'
      /\ trace m' = trace loaded
                    ++ [Indirect 28928 [VStr "fnB"]; Indirect 45312 [VInt 9]]
      /\ slots m' (Static "pfnB") = 45312)
  /\ (exists m',
      entrypoint 64 false fake_os "fnA" (Static "pfnA") [VInt 9] loaded = Done 7 m'
      /\ trace m' = trace loaded
                    ++ [Indirect 28928 [VStr "fnA"]; GetProcAddress 28672 "fnA";
                        Indirect 40960 [VInt 9]]
      /\ slots m' (Static "pfnA") = 40960)
  /\ (exists m',
      entrypoint 64 false fake_os "fnC" (Static "pfnC") [VInt 9] loaded
        = Stopped AssertionFailed m'
      /\ trace m' = trace loaded
                    ++ [Indirect 28928 [VStr "fnC"]; GetProcAddress 28672 "fnC"]
      /\ slots m' (Static "pfnC") = 0).
Proof.
  assert (W : (2 <= 64)%N) by discriminate.
  assert (Q : m_pfnWglGetProcAddress (mkLoader 28672 28928) <> 0)
    by discriminate.
  split; [|split].
  - apply (proj1 (first_invocation_end_to_end 64 false fake_os
                    (mkLoader 28672 28928) "fnB" (Static "pfnB") [VInt 9] loaded
                    W eq_refl Q eq_refl)).
    vm_compute. intros [H|[H|[H|[H|H]]]]; discriminate H.
  - apply (proj1 (proj2 (first_invocation_end_to_end 64 false fake_os
                    (mkLoader 28672 28928) "fnA" (Static "pfnA") [VInt 9] loaded
                    W eq_refl Q eq_refl))).
    + right; left; reflexivity.
    + discriminate.
  - apply (proj2 (proj2 (first_invocation_end_to_end 64 false fake_os
                    (mkLoader 28672 28928) "fnC" (Static "pfnC") [VInt 9] loaded
                    W eq_refl Q eq_refl))).
    + left; reflexivity.
    + reflexivity.
Defined.

(** A first frame on the drifting driver, then two more at other sizes. *)
Lemma frames_after_the_first_witness :
  exists m1 m',
    render 64 false drifting_os fresh_app loaded = Done tt m1
    /\ render_all 64 false drifting_os fresh_app [(800, 600); (1024, 768)] m1
       = Done tt m'
    /\ trace m'
       = trace m1
         ++ [Indirect 36866 [VInt 0; VInt 0; VInt 800; VInt 600];
             Indirect 36868 [VReal 1050253722; VReal 1056964608;
                             VReal 1063675494; VReal 0];
             Indirect 36870 [VInt 17664];
             Indirect 36866 [VInt 0; VInt 0; VInt 1024; VInt 768];
             Indirect 36868 [VReal 1050253722; VReal 1056964608;
                             VReal 1063675494; VReal 0];
             Indirect 36870 [VInt 17664]].
Proof.
  destruct (render 64 false drifting_os fresh_app loaded) as [[] m1|f m1] eqn:E;
    [|vm_compute in E; discriminate].
  destruct (frames_after_the_first 64 false drifting_os fresh_app loaded m1
              [(800, 600); (1024, 768)] E) as (m' & R & T & _).
  assert (V : slots m1 (Static "pfnViewport") = 36866)
    by (vm_compute in E; injection E as <-; reflexivity).
  assert (C : slots m1 (Static "pfnClearColor") = 36868)
    by (vm_compute in E; injection E as <-; reflexivity).
  assert (L : slots m1 (Static "pfnClear") = 36870)
    by (vm_compute in E; injection E as <-; reflexivity).
  exists m1, m'. split; [reflexivity|]. split; [exact R|].
  rewrite T. cbn [flat_map frame_calls List.app fst snd].
  rewrite V, C, L. reflexivity.
Defined.

(** [initOpenGL] where every [GetDC] answers another handle: the format is
    set on 80, the context 4096 is created and made current on 83. *)
Lemma initOpenGL_makes_its_context_current_witness :
  exists app' m',
    initOpenGL 64 false fresh_dc_os 22136 fresh_app boot = Done (app', None) m'
    /\ m_pContext app' = Some 0%nat
    /\ m_hDC app' = 83
    /\ m_hRC app' = 4096
    /\ exists cs1 cs2,
         trace m'
         = [GetDC 4660; ChoosePixelFormat 80 22136; SetPixelFormat 80 5 22136;
            GetDC 4660]
           ++ cs1 ++ [Indirect 40960 [VPtr 83]]
           ++ cs2 ++ [Indirect 40976 [VPtr 83; VPtr 4096]].
Proof.
  destruct (initOpenGL 64 false fresh_dc_os 22136 fresh_app boot)
    as [[app' e] m'|f m'] eqn:E; [|vm_compute in E; discriminate].
  assert (N : e = None)
    by (vm_compute in E; injection E as _ Ee _; now symmetry).
  subst e.
  assert (R : m_hRC app' = 4096)
    by (vm_compute in E; injection E as <- _; reflexivity).
  assert (A1 : slots m' (Member 0 "m_pfnWglCreateContext") = 40960)
    by (vm_compute in E; injection E as _ <-; reflexivity).
  assert (A2 : slots m' (Member 0 "m_pfnWglMakeCurrent") = 40976)
    by (vm_compute in E; injection E as _ <-; reflexivity).
  destruct (initOpenGL_makes_its_context_current 64 false fresh_dc_os
              22136 fresh_app app' boot m' E)
    as (Eq & _ & _ & _ & _ & _ & cs1 & cs2 & T & _ & _).
  exists app', m'. split; [reflexivity|].
  split; [now rewrite Eq|]. split; [now rewrite Eq|]. split; [exact R|].
  exists cs1, cs2. rewrite T. cbn [next_this boot trace]. rewrite A1, A2, R.
  cbn [List.app]. repeat rewrite <- app_assoc. reflexivity.
Defined.

(** The three early failures: no device context, a refused format, and a
    window that yields a device context only once. *)
Lemma initOpenGL_fails_before_the_driver_witness :
  initOpenGL 64 false no_dc_os 22136 fresh_app boot
    = Done (set_pContext None fresh_app,
            Some "GLContext::createForWindow() failed.")
           (mkMachine [GetDC 4660] None (slots boot) 1)
  /\ initOpenGL 64 false no_format_os 22136 fresh_app boot
    = Done (set_pContext None fresh_app,
            Some "GLContext::createForWindow() failed.")
           (mkMachine [GetDC 4660; ChoosePixelFormat 80 22136;
                       SetPixelFormat 80 0 22136] None (slots boot) 1)
  /\ initOpenGL 64 false one_dc_os 22136 fresh_app boot
    = Done (set_hDC 0 (set_pContext (Some 0%nat) fresh_app),
            Some "GetDC() failed.")
           (mkMachine [GetDC 4660; ChoosePixelFormat 80 22136;
                       SetPixelFormat 80 5 22136; GetDC 4660]
                      None (slots boot) 1).
Proof.
  split; [|split].
  - exact (proj1 (initOpenGL_fails_before_the_driver 64 false no_dc_os
                    22136 fresh_app boot) eq_refl).
  - apply (proj1 (proj2 (initOpenGL_fails_before_the_driver 64 false
                    no_format_os 22136 fresh_app boot)));
      [discriminate | reflexivity].
  - apply (proj2 (proj2 (initOpenGL_fails_before_the_driver 64 false
                    one_dc_os 22136 fresh_app boot)));
      [discriminate | discriminate | reflexivity].
Defined.


Lemma destroy_again_only_unregisters_witness :
  exists app1 m1 app2 wins m2,
    initOpenGL 64 false fresh_dc_os 22136 fresh_app boot = Done (app1, None) m1
    /\ destroy 64 false fresh_dc_os app1 m1 = Done (app2, wins) m2
    /\ destroy 64 false fresh_dc_os app2 m2
       = Done (app2,
               [(length (trace m2),
                 UnregisterClassW "GLApplicationWindowClass" 4194304)])
              m2.
Proof.
  destruct (initOpenGL 64 false fresh_dc_os 22136 fresh_app boot)
    as [[app1 e] m1|f m1] eqn:E; [|vm_compute in E; discriminate].
  assert (N : e = None)
    by (vm_compute in E; injection E as _ Ee _; now symmetry).
  subst e.
  assert (C : m_pContext app1 = Some 0%nat)
    by (vm_compute in E; injection E as <- _; reflexivity).
  assert (W : lpszClassName (m_wcl app1) = "GLApplicationWindowClass")
    by (vm_compute in E; injection E as <- _; reflexivity).
  assert (I : m_hInstance app1 = 4194304)
    by (vm_compute in E; injection E as <- _; reflexivity).
  destruct (destroy 64 false fresh_dc_os app1 m1)
    as [[app2 wins] m2|f m2] eqn:E2.
  - exists app1, m1, app2, wins, m2.
    split; [reflexivity|]. split; [exact E2|].
    rewrite <- W, <- I.
    apply (destroy_again_only_unregisters 64 false fresh_dc_os
             app1 app2 wins m1 m2 E2).
    left. rewrite C. discriminate.
  - exfalso. vm_compute in E. injection E as <- <-.
    vm_compute in E2. discriminate.
Defined.
